(** * PDF-to-editable-document front end: the editor glue and the upload workflow

    A shallow embedding of [src/components/Editor.tsx] (document validity,
    node identity attributes, the math node renderer, the editor's update
    callback and its content-synchronisation effect) and of the upload
    component [SubmitPdf] (the drop handler and its imperative accessors),
    followed by the properties of the specification that were checked
    against them.

    JavaScript values are modelled as a tree type with the language's own
    notions of truthiness, [typeof], property access and [JSON.stringify];
    handlers that write component state, log, call the network or throw are
    written in a small state-and-exception monad whose [try/catch/finally]
    follows the language's. *)

From Stdlib Require Import String Ascii List ZArith Bool Lia.
From Stdlib Require Import DecimalString DecimalPos DecimalZ.
Import ListNotations.
Open Scope string_scope.

(* ================================================================== *)
(** * JavaScript values *)
(* ================================================================== *)

Module JS.

(** Values as the handlers see them.  Numbers are restricted to integers
    (the document trees carry heading levels and table spans, no
    fractions); an object is its list of own properties in enumeration
    order, which is the order [JSON.stringify] and [JSON.parse] follow. *)
Unset Elimination Schemes.
Inductive Value : Type :=
| JUndefined
| JNull
| JBool (b : bool)
| JNum (n : Z)
| JStr (s : string)
| JArr (items : list Value)
| JObj (props : list (string * Value)).
Set Elimination Schemes.

(** What a [throw] carries: an [Error] instance (of any subclass,
    [DOMException] included) with its message, or some other value. *)
Inductive Thrown : Type :=
| ErrorObject (name message : string)
| ThrownValue (v : Value).

(** Outcome of evaluating an expression or a callback. *)
Inductive Completion (A : Type) : Type :=
| Normal (a : A)
| Throw (e : Thrown).
Arguments Normal {A} a.
Arguments Throw {A} e.

(** [ToBoolean]. *)
Definition truthy (v : Value) : bool :=
  match v with
  | JUndefined | JNull => false
  | JBool b => b
  | JNum n => negb (n =? 0)%Z
  | JStr s => negb (s =? "")
  | JArr _ | JObj _ => true
  end.

(** The [typeof] operator. *)
Definition typeof (v : Value) : string :=
  match v with
  | JUndefined => "undefined"
  | JNull => "object"
  | JBool _ => "boolean"
  | JNum _ => "number"
  | JStr _ => "string"
  | JArr _ | JObj _ => "object"
  end.

Definition Array_isArray (v : Value) : bool :=
  match v with JArr _ => true | _ => false end.

(** [v === s] for a string literal [s]. *)
Definition strictEqualsString (v : Value) (s : string) : bool :=
  match v with JStr t => t =? s | _ => false end.

(** First own property named [k]. *)
Fixpoint lookup (k : string) (props : list (string * Value)) : option Value :=
  match props with
  | [] => None
  | (k', v) :: rest => if k' =? k then Some v else lookup k rest
  end.

(** [v.k] for a key [k] that is no built-in property of strings or arrays
    (the handlers read [type], [content] and [error] only): reading from
    [null] or [undefined] throws a [TypeError], a missing property reads as
    [undefined]. *)
Definition TypeError_message (v : Value) (k : string) : string :=
  "Cannot read properties of " ++
  (match v with JNull => "null" | _ => "undefined" end) ++
  " (reading '" ++ k ++ "')".

Definition getProp (v : Value) (k : string) : Completion Value :=
  match v with
  | JUndefined | JNull => Throw (ErrorObject "TypeError" (TypeError_message v k))
  | JObj props =>
      Normal (match lookup k props with Some w => w | None => JUndefined end)
  | _ => Normal JUndefined
  end.

(** [v.k] where [v] is already known to be neither [null] nor [undefined]. *)
Definition prop (v : Value) (k : string) : Value :=
  match getProp v k with Normal w => w | Throw _ => JUndefined end.

(** [a || b] on values. *)
Definition or_else (a b : Value) : Value := if truthy a then a else b.

Definition string_of_Z (n : Z) : string :=
  NilZero.string_of_int (Z.to_int n).

Fixpoint join (sep : string) (l : list string) : string :=
  match l with
  | [] => ""
  | [x] => x
  | x :: rest => x ++ sep ++ join sep rest
  end.

(** [ToString], as [new Error(v)] applies it to its argument.  An array
    joins the strings of its elements ([null] and [undefined] give the
    empty string); a plain object gives ["[object Object]"] through the
    inherited [toString], and has no primitive value when an own property
    shadows that method with data. *)
Definition TypeError_primitive : Thrown :=
  ErrorObject "TypeError" "Cannot convert object to primitive value".

Fixpoint ToString (v : Value) : Completion string :=
  match v with
  | JUndefined => Normal "undefined"
  | JNull => Normal "null"
  | JBool true => Normal "true"
  | JBool false => Normal "false"
  | JNum n => Normal (string_of_Z n)
  | JStr s => Normal s
  | JArr items =>
      (fix elements (l : list Value) (acc : list string) : Completion string :=
         match l with
         | [] => Normal (join "," (rev acc))
         | x :: l' =>
             match x with
             | JUndefined | JNull => elements l' ("" :: acc)
             | _ => match ToString x with
                    | Normal s => elements l' (s :: acc)
                    | Throw e => Throw e
                    end
             end
         end) items []
  | JObj props =>
      match lookup "toString" props with
      | Some _ => Throw TypeError_primitive
      | None => Normal "[object Object]"
      end
  end.

(** ** [JSON.stringify] *)

Definition hex_digit (n : nat) : ascii :=
  ascii_of_nat (if Nat.ltb n 10 then 48 + n else 87 + n).

Definition dquote : string := String "034"%char EmptyString.
Definition backslash : string := String "092"%char EmptyString.

(** One character of [QuoteJSONString]. *)
Definition quote_char (c : ascii) : string :=
  let n := nat_of_ascii c in
  if Nat.eqb n 34 then backslash ++ dquote
  else if Nat.eqb n 92 then backslash ++ backslash
  else if Nat.eqb n 8 then backslash ++ "b"
  else if Nat.eqb n 9 then backslash ++ "t"
  else if Nat.eqb n 10 then backslash ++ "n"
  else if Nat.eqb n 12 then backslash ++ "f"
  else if Nat.eqb n 13 then backslash ++ "r"
  else if Nat.ltb n 32 then
    backslash ++ "u00" ++
    String (hex_digit (n / 16)) (String (hex_digit (n mod 16)) EmptyString)
  else String c EmptyString.

Fixpoint quote_chars (s : string) : string :=
  match s with
  | EmptyString => ""
  | String c rest => quote_char c ++ quote_chars rest
  end.

Definition quoteJSONString (s : string) : string :=
  dquote ++ quote_chars s ++ dquote.

(** [JSON.stringify(v)] with no replacer and no indentation: [undefined]
    has no serialisation, a property whose value has none is left out, an
    array element that has none is written [null]. *)
Fixpoint JSON_stringify (v : Value) : option string :=
  match v with
  | JUndefined => None
  | JNull => Some "null"
  | JBool true => Some "true"
  | JBool false => Some "false"
  | JNum n => Some (string_of_Z n)
  | JStr s => Some (quoteJSONString s)
  | JArr items =>
      Some ("[" ++
            join "," (map (fun x => match JSON_stringify x with
                                    | Some t => t
                                    | None => "null"
                                    end) items)
            ++ "]")
  | JObj props =>
      Some ("{" ++
            join ","
              (flat_map (fun kv => match JSON_stringify (snd kv) with
                                   | Some t => [quoteJSONString (fst kv) ++ ":" ++ t]
                                   | None => []
                                   end) props)
            ++ "}")
  end.

(** [a !== b] on two results of [JSON.stringify]. *)
Definition option_string_eqb (a b : option string) : bool :=
  match a, b with
  | Some x, Some y => x =? y
  | None, None => true
  | _, _ => false
  end.

(** ** Deep structural equality

    The relation the specification's glossary calls structural equality:
    deep value equality of two trees, where an object is the map from its
    property names to their values, so that the order in which the
    properties are listed plays no role. *)
Fixpoint deepEqual (a b : Value) : bool :=
  match a, b with
  | JUndefined, JUndefined => true
  | JNull, JNull => true
  | JBool x, JBool y => Bool.eqb x y
  | JNum x, JNum y => (x =? y)%Z
  | JStr x, JStr y => x =? y
  | JArr xs, JArr ys =>
      (fix eq_items (l : list Value) (r : list Value) : bool :=
         match l, r with
         | [], [] => true
         | x :: l', y :: r' => deepEqual x y && eq_items l' r'
         | _, _ => false
         end) xs ys
  | JObj ps, JObj qs =>
      Nat.eqb (length ps) (length qs) &&
      forallb (fun kv => match lookup (fst kv) qs with
                         | Some w => deepEqual (snd kv) w
                         | None => false
                         end) ps
  | _, _ => false
  end.

End JS.

(* ================================================================== *)
(** * Handlers: state, exceptions, [try/catch/finally] *)
(* ================================================================== *)

Module Eff.
Import JS.

(** A handler body over a store [S]: it ends normally with a result or
    abruptly with a thrown value, and leaves a store either way. *)
Definition M (S A : Type) : Type := S -> Completion A * S.

Section Combinators.
Context {S : Type}.

Definition ret {A} (a : A) : M S A := fun s => (Normal a, s).

Definition bind {A B} (m : M S A) (k : A -> M S B) : M S B :=
  fun s => match m s with
           | (Normal a, s') => k a s'
           | (Throw e, s') => (Throw e, s')
           end.

Definition throw {A} (e : Thrown) : M S A := fun s => (Throw e, s).

Definition lift {A} (c : Completion A) : M S A := fun s => (c, s).

Definition get : M S S := fun s => (Normal s, s).

Definition modify (f : S -> S) : M S unit := fun s => (Normal tt, f s).

(** [try { body } catch (err) { handler err }]. *)
Definition try_catch {A} (body : M S A) (handler : Thrown -> M S A) : M S A :=
  fun s => match body s with
           | (Normal a, s') => (Normal a, s')
           | (Throw e, s') => handler e s'
           end.

(** [try { body } finally { fin }]: [fin] runs on every path; its own
    abrupt completion replaces that of [body]. *)
Definition try_finally {A} (body : M S A) (fin : M S unit) : M S A :=
  fun s => match body s with
           | (c, s') => match fin s' with
                        | (Normal _, s'') => (c, s'')
                        | (Throw e, s'') => (Throw e, s'')
                        end
           end.

Definition when (b : bool) (m : M S unit) : M S unit :=
  if b then m else ret tt.
End Combinators.

Declare Scope eff_scope.
Delimit Scope eff_scope with eff.
Notation "x <- m ;; k" := (bind m (fun x => k))
  (at level 61, m at next level, right associativity) : eff_scope.
Notation "m ;; k" := (bind m (fun _ => k))
  (at level 61, right associativity) : eff_scope.

End Eff.

(* ================================================================== *)
(** * [src/components/Editor.tsx] *)
(* ================================================================== *)

Module EditorTsx.
Import JS Eff.
Local Open Scope eff_scope.

(** ** The document model *)

(** [const defaultContent]: one paragraph holding one empty text run. *)
Definition defaultContent : Value :=
  JObj [ ("type", JStr "doc");
         ("content",
          JArr [ JObj [ ("type", JStr "paragraph");
                        ("content",
                         JArr [ JObj [ ("type", JStr "text");
                                       ("text", JStr "") ] ]) ] ]) ].

(** [function isValidContent(content)]: the value of the chain
    [content && typeof content === "object" && content.type === "doc" &&
    Array.isArray(content.content)], which is its first falsy operand, or
    its last operand when none is falsy. *)
Definition isValidContent (content : Value) : Value :=
  if negb (truthy content) then content
  else if negb (typeof content =? "object") then JBool false
  else if negb (strictEqualsString (prop content "type") "doc") then JBool false
  else JBool (Array_isArray (prop content "content")).

(** ** Node identity attributes *)

(** The generator behind [uuidv4()]: a source of identifiers that is read
    one draw at a time. *)
Module Uuid.
Record Source : Type := { stream : nat -> string; position : nat }.

Definition uuidv4 : M Source string :=
  fun g => (Normal (stream g (position g)),
            {| stream := stream g; position := S (position g) |}).
End Uuid.

(** [interface NodeAttributes { id: string | null }]. *)
Record NodeAttributes : Type := { id : option string }.

(** An object of HTML attributes, as [renderHTML] returns it. *)
Definition HTMLAttrs : Type := list (string * string).

(** [attributes.id || uuidv4()]: the stored id when it is a non-empty
    string, a fresh draw otherwise. *)
Definition id_or_fresh (attributes : NodeAttributes) : M Uuid.Source string :=
  match id attributes with
  | Some i => if i =? "" then Uuid.uuidv4 else ret i
  | None => Uuid.uuidv4
  end.

(** [addNodeId().id.renderHTML]. *)
Definition addNodeId_renderHTML (attributes : NodeAttributes)
  : M Uuid.Source HTMLAttrs :=
  i <- id_or_fresh attributes ;;
  ret [ ("data-node-id", i); ("data-node-tooltip", "Node ID: " ++ i) ].

(** The [id.renderHTML] written out in [Math.configure]. *)
Definition Math_id_renderHTML (attributes : NodeAttributes)
  : M Uuid.Source HTMLAttrs :=
  i <- id_or_fresh attributes ;;
  ret [ ("data-node-id", i); ("data-node-tooltip", "Node ID: " ++ i) ].

(** The attribute object that shows the identifier [i]. *)
Definition idAttrs (i : string) : HTMLAttrs :=
  [ ("data-node-id", i); ("data-node-tooltip", "Node ID: " ++ i) ].

(** [addNodeId().id.default]. *)
Definition addNodeId_default : NodeAttributes := {| id := None |}.

(** The node kinds of the extension list. *)
Inductive NodeKind : Type :=
| Paragraph | Blockquote | BulletList | OrderedList | ListItem | Heading
| CodeBlock | Image | Table | TableRow | TableHeader | TableCell | MathNode.

(** Where the source hands an extension its [addAttributes]: in the
    argument of [Node.create], which is the extension's configuration, or
    in the argument of [X.configure], which becomes the extension's
    options. *)
Inductive Site : Type := InCreate | InConfigure.

(** The editor builds the attributes of a node from the configuration of
    its extension; [configure] replaces the options and leaves the
    configuration as it was, so an [addAttributes] among the options is
    never called. *)
Definition readByEditor (s : Site) : bool :=
  match s with
  | InCreate => true
  | InConfigure => false
  end.

(** The [id] attribute as the source declares it for each node kind: the
    site of the [addAttributes] that holds it, and its renderer. *)
Definition idDeclaration (k : NodeKind)
  : option (Site * (NodeAttributes -> M Uuid.Source HTMLAttrs)) :=
  match k with
  | Paragraph | BulletList | ListItem | Heading | CodeBlock =>
      Some (InConfigure, addNodeId_renderHTML)
  | MathNode => Some (InConfigure, Math_id_renderHTML)
  | Blockquote | OrderedList | Image | Table | TableRow | TableHeader
  | TableCell => None
  end.

(** The [id] renderer the editor calls for a node of kind [k], if any. *)
Definition idRenderer (k : NodeKind)
  : option (NodeAttributes -> M Uuid.Source HTMLAttrs) :=
  match idDeclaration k with
  | Some (site, render) => if readByEditor site then Some render else None
  | None => None
  end.

(** What the editor adds to the markup of a node of kind [k] for its [id]
    attribute. *)
Definition renderNodeId (k : NodeKind) (attributes : NodeAttributes)
  : M Uuid.Source HTMLAttrs :=
  match idRenderer k with
  | Some render => render attributes
  | None => ret []
  end.

(** Rendering a node [n] times in a row; the attributes are the ones the
    node holds, which no renderer writes. *)
Fixpoint renderTimes (render : NodeAttributes -> M Uuid.Source HTMLAttrs)
  (attributes : NodeAttributes) (n : nat) : M Uuid.Source (list HTMLAttrs) :=
  match n with
  | O => ret []
  | S n' =>
      h <- render attributes ;;
      rest <- renderTimes render attributes n' ;;
      ret (h :: rest)
  end.

(** The source after [n] more draws. *)
Definition advanced (g : Uuid.Source) (n : nat) : Uuid.Source :=
  {| Uuid.stream := Uuid.stream g; Uuid.position := n + Uuid.position g |}.

(** The identifier a rendering shows. *)
Definition shownId (h : HTMLAttrs) : option string :=
  match h with
  | (k, v) :: _ => if k =? "data-node-id" then Some v else None
  | [] => None
  end.

(** ** The math node *)

(** What a step of the typesetter comes to: a result, a [ParseError] (the
    typesetter's own exception for a source it does not accept), or any
    other exception raised on the way, such as the [RangeError] of a
    recursion that exhausts the stack. *)
Inductive Attempt (A : Type) : Type :=
| Succeeded (a : A)
| ParseError (message : string)
| Raised (e : Thrown).
Arguments Succeeded {A} a.
Arguments ParseError {A} message.
Arguments Raised {A} e.

Record KatexOptions : Type := {
  throwOnError : bool;
  displayMode : bool;
  output : string;
  strict : bool
}.

(** The formula typesetter behind [katex.renderToString]: its parser, the
    markup builder for a parse tree, and the markup shown in place of a
    source that did not parse. *)
Class Katex : Type := {
  Tree : Type;
  parseTree : string -> KatexOptions -> Attempt Tree;
  buildMarkup : Tree -> KatexOptions -> Attempt string;
  errorMarkup : string -> string -> KatexOptions -> string
}.

(** Parsing, then building: the body of the typesetter's [try]. *)
Definition typeset {K : Katex} (src : string) (options : KatexOptions)
  : Attempt string :=
  match parseTree src options with
  | Succeeded t => buildMarkup t options
  | ParseError msg => ParseError msg
  | Raised e => Raised e
  end.

(** [katex.renderToString(expression, options)]: only a string is parsed;
    a [ParseError] is rethrown when [throwOnError] is set and rendered as
    error markup otherwise; every other exception is rethrown whatever the
    options are. *)
Definition katex_renderToString {K : Katex} (expression : Value)
  (options : KatexOptions) : Completion string :=
  match expression with
  | JStr src =>
      match typeset src options with
      | Succeeded html => Normal html
      | ParseError msg =>
          if throwOnError options
          then Throw (ErrorObject "ParseError" msg)
          else Normal (errorMarkup src msg options)
      | Raised e => Throw e
      end
  | _ => Throw (ErrorObject "TypeError"
                  "KaTeX can only parse string typed expression")
  end.

(** The browser side of [renderHTML]: parsing markup into the children of
    a fresh [div], and merging attribute objects. *)
Class Dom : Type := {
  DomNode : Type;
  innerHTML : string -> list DomNode;
  mergeAttributes : HTMLAttrs -> HTMLAttrs -> HTMLAttrs
}.

(** The options [Math.renderHTML] passes. *)
Definition mathOptions : KatexOptions :=
  {| throwOnError := false; displayMode := true; output := "html";
     strict := false |}.

(** What [Math.renderHTML] returns: [["div", attributes, container.firstChild]]. *)
Record MathFragment {D : Dom} : Type := {
  tag : string;
  attributes : HTMLAttrs;
  child : option DomNode
}.

(** [Math.renderHTML({ node, HTMLAttributes })], with [formula] the value
    of [node.attrs.formula]. *)
Definition Math_renderHTML {K : Katex} {D : Dom} (formula : Value)
  (HTMLAttributes : HTMLAttrs) : Completion MathFragment :=
  match katex_renderToString (or_else formula (JStr "")) mathOptions with
  | Throw e => Throw e
  | Normal html =>
      let container := innerHTML html in
      Normal {| tag := "div";
                attributes :=
                  mergeAttributes HTMLAttributes
                    [ ("data-type", "math"); ("class", "math-block") ];
                child := hd_error container |}
  end.

(** The fragment [renderHTML] returns around the markup [html]. *)
Definition fragmentOf {D : Dom} (HTMLAttributes : HTMLAttrs) (html : string)
  : MathFragment :=
  {| tag := "div";
     attributes :=
       mergeAttributes HTMLAttributes
         [ ("data-type", "math"); ("class", "math-block") ];
     child := hd_error (innerHTML html) |}.

(** ** The editing surface *)

(** The editor library behind [useEditor]: documents of the configured
    schema, how a JSON value is turned into one ([setContent] and the
    initial [content] option both go through it), how a document is
    serialised by [getJSON], and where the cursor lands when the document
    is replaced. *)
Class Tiptap : Type := {
  Doc : Type;
  Selection : Type;
  createDocument : Value -> Doc;
  toJSON : Doc -> Completion Value;
  selectionAtStart : Doc -> Selection;
  mapSelection : Doc -> Selection -> Doc -> Selection
}.

Section Component.
Context {T : Tiptap}.

(** The live state of the editor: its document and the user's cursor. *)
Record EditorState : Type := { doc : Doc; selection : Selection }.

(** What the component's callbacks do to the outside, in order. *)
Inductive Event : Type :=
| ConsoleWarn (message : string)
| ConsoleError (message : string) (error : Thrown)
| SetContentCall (content : Value) (emitUpdate : bool)
| OnChangeCall (json : Value).

(** The component instance: the editor ([null] until [useEditor] has
    created it) and the trace of calls made so far. *)
Record World : Type := { editor : option EditorState; trace : list Event }.

Definition emit (e : Event) : M World unit :=
  modify (fun w => {| editor := editor w; trace := trace w ++ [e] |}).

(** The [content] option of [useEditor]:
    [isValidContent(content) ? content : defaultContent]. *)
Definition initialContent (content : Value) : Value :=
  if truthy (isValidContent content) then content else defaultContent.

Definition initialize (content : Value) : EditorState :=
  let d := createDocument (initialContent content) in
  {| doc := d; selection := selectionAtStart d |}.

(** [editor.getJSON()]. *)
Definition getJSON (e : EditorState) : Completion Value := toJSON (doc e).

(** [editor.commands.setContent(content, false)]: the whole document is
    replaced by the one built from [content]; with [emitUpdate] false the
    update callback is not fired. *)
Definition replaceDocument (content : Value) (e : EditorState) : EditorState :=
  let d := createDocument content in
  {| doc := d; selection := mapSelection (doc e) (selection e) d |}.

Definition setContent (content : Value) : M World unit :=
  modify (fun w =>
    {| editor := option_map (replaceDocument content) (editor w);
       trace := trace w ++ [SetContentCall content false] |}).

(** [onChange?.(json)]; the callback belongs to the host and may throw. *)
Definition call_onChange (onChange : option (Value -> Completion unit))
  (json : Value) : M World unit :=
  match onChange with
  | None => ret tt
  | Some f => emit (OnChangeCall json) ;; lift (f json)
  end.

(** The [onUpdate] option of [useEditor], called by the editor with
    itself after a transaction of the user changed the document. *)
Definition onUpdate (onChange : option (Value -> Completion unit))
  (e : EditorState) : M World unit :=
  try_catch
    (jsonContent <- lift (getJSON e) ;;
     if truthy (isValidContent jsonContent)
     then call_onChange onChange jsonContent
     else ret tt)
    (fun error => emit (ConsoleError "Failed to get editor content:" error)).

(** A transaction of the user: the editor moves to the state [e'] and
    fires [onUpdate]. *)
Definition localEdit (onChange : option (Value -> Completion unit))
  (e' : EditorState) : M World unit :=
  modify (fun w => {| editor := Some e'; trace := trace w |}) ;;
  onUpdate onChange e'.

(** The body of the [useEffect] that follows the [content] prop. *)
Definition syncEffect (content : Value) : M World unit :=
  w <- get ;;
  match editor w with
  | Some e =>
      if truthy content then
        try_catch
          (if truthy (isValidContent content) then
             currentContent <- lift (getJSON e) ;;
             when (negb (option_string_eqb (JSON_stringify content)
                                           (JSON_stringify currentContent)))
                  (setContent content)
           else
             emit (ConsoleWarn "Invalid content provided to Editor") ;;
             setContent defaultContent)
          (fun error =>
             emit (ConsoleError "Failed to update editor content:" error) ;;
             setContent defaultContent)
      else ret tt
  | None => ret tt
  end.

(** The [setContent] calls among a list of events. *)
Definition setContentCalls (l : list Event) : list Value :=
  flat_map (fun ev => match ev with
                      | SetContentCall c _ => [c]
                      | _ => []
                      end) l.

(** The documents handed to [onChange] among a list of events. *)
Definition onChangeCalls (l : list Event) : list Value :=
  flat_map (fun ev => match ev with
                      | OnChangeCall j => [j]
                      | _ => []
                      end) l.

(** The serialised document of the component's editor, if it has one. *)
Definition serialized (w : World) : option (Completion Value) :=
  option_map getJSON (editor w).

(** The document the component's editor holds, if it has one. *)
Definition docOf (w : World) : option Doc := option_map doc (editor w).

End Component.

End EditorTsx.

(* ================================================================== *)
(** * The upload component [SubmitPdf] *)
(* ================================================================== *)

Module SubmitPdf.
Import JS Eff.
Local Open Scope eff_scope.

(** A dropped [File], as far as the handler reads it. *)
Record File : Type := { name : string; type : string }.

(** The three [useState] cells: [data], [error], [isLoading]. *)
Record State : Type := { data : Value; error : string; isLoading : bool }.

(** [useState] initial values. *)
Definition initialState : State :=
  {| data := JNull; error := ""; isLoading := false |}.

(** What the handler does to the outside, in order. *)
Inductive Event : Type :=
| FetchCall (url : string) (method : string) (body : File)
| ConsoleLog (v : Value)
| ContentChangeCall (v : Value).

Record World : Type := { state : State; trace : list Event }.

(** A [Response]: its [ok] flag and what [await response.json()] gives.
    While the handler is suspended on either [await] other handlers of
    the page may run, so both are computations over the component. *)
Record Response : Type := { ok : bool; json : M World Value }.

(** The conversion service as the handler meets it: what
    [await fetch(...)] gives for a file, a response or a rejection
    (network failure, or the abort of the 300000 ms signal). *)
Definition Network : Type := File -> M World Response.

Definition setData (v : Value) : M World unit :=
  modify (fun w =>
    {| state := {| data := v; error := error (state w);
                   isLoading := isLoading (state w) |};
       trace := trace w |}).

Definition setError (msg : string) : M World unit :=
  modify (fun w =>
    {| state := {| data := data (state w); error := msg;
                   isLoading := isLoading (state w) |};
       trace := trace w |}).

Definition setIsLoading (b : bool) : M World unit :=
  modify (fun w =>
    {| state := {| data := data (state w); error := error (state w);
                   isLoading := b |};
       trace := trace w |}).

Definition emit (e : Event) : M World unit :=
  modify (fun w => {| state := state w; trace := trace w ++ [e] |}).

(** [new Error(message)] thrown. *)
Definition throw_new_Error {A} (message : Value) : M World A :=
  msg <- lift (ToString message) ;;
  throw (ErrorObject "Error" msg).

(** [await fetch('/api/py/convert', { method: 'POST', body: formData, ... })]. *)
Definition fetch_convert (net : Network) (file : File) : M World Response :=
  emit (FetchCall "/api/py/convert" "POST" file) ;;
  net file.

(** The component while the request is in flight: the three cells reset,
    the loading flag up, one more call on the wire. *)
Definition uploading (w : World) (file : File) : World :=
  {| state := {| data := JNull; error := ""; isLoading := true |};
     trace := trace w ++ [FetchCall "/api/py/convert" "POST" file] |}.

(** The component once the handler has caught [err] in the world [w]. *)
Definition failed (w : World) (message : string) : World :=
  {| state := {| data := data (state w); error := message;
                 isLoading := false |};
     trace := trace w |}.

(** [onContentChange?.(result)]; the observer belongs to the host. *)
Definition call_onContentChange
  (onContentChange : option (Value -> Completion unit)) (result : Value)
  : M World unit :=
  match onContentChange with
  | None => ret tt
  | Some f => emit (ContentChangeCall result) ;; lift (f result)
  end.

(** Reading [file.type] when [acceptedFiles[0]] is [undefined]. *)
Definition undefined_file_type : Thrown :=
  ErrorObject "TypeError" (TypeError_message JUndefined "type").

(** [err instanceof Error ? err.message : 'An error occurred']. *)
Definition error_text (err : Thrown) : string :=
  match err with
  | ErrorObject _ message => message
  | ThrownValue _ => "An error occurred"
  end.

(** The [onDrop] callback. *)
Definition onDrop (onContentChange : option (Value -> Completion unit))
  (net : Network) (acceptedFiles : list File) : M World unit :=
  let file := nth_error acceptedFiles 0 in
  setError "" ;;
  setData JNull ;;
  setIsLoading true ;;
  try_finally
    (try_catch
       (match file with
        | None => throw undefined_file_type
        | Some f =>
            (if (type f =? "") || negb (type f =? "application/pdf")
             then throw_new_Error (JStr "Please upload a PDF file")
             else ret tt) ;;
            response <- fetch_convert net f ;;
            result <- json response ;;
            (if negb (ok response)
             then e <- lift (getProp result "error") ;;
                  throw_new_Error (or_else e (JStr "Failed to convert PDF"))
             else ret tt) ;;
            setData result ;;
            emit (ConsoleLog result) ;;
            call_onContentChange onContentChange result
        end)
       (fun err => setError (error_text err)))
    (setIsLoading false).

(** [useDropzone({ onDrop, accept: {'application/pdf': ['.pdf']},
    multiple: false })] in front of the handler, for the drop of one file:
    the library calls [onDrop] with the files its accept filter lets
    through, also when there is none.  [accepts] is the filter the library
    derives from the [accept] option. *)
Definition dropFile (accepts : File -> bool)
  (onContentChange : option (Value -> Completion unit)) (net : Network)
  (file : File) : M World unit :=
  onDrop onContentChange net (if accepts file then [file] else []).

(** The handle of [useImperativeHandle]. *)
Definition getHtml (s : State) : Value := data s.
Definition clearHtml : M World unit := setData JNull.
Definition isConverting (s : State) : bool := isLoading s.
Definition getError (s : State) : Value := or_else (JStr (error s)) JNull.

(** What the component shows: the text of the drop zone and, when
    [error] is truthy, the error box with its text. *)
Record View : Type := { dropzoneText : string; errorBox : option string }.

Definition render (isDragActive : bool) (s : State) : View :=
  {| dropzoneText :=
       if isLoading s then "Converting PDF..."
       else if isDragActive then "Drop the PDF file here"
       else "Drag and drop a PDF file here, or click to select";
     errorBox := if truthy (JStr (error s)) then Some (error s) else None |}.

(** The network calls among a list of events. *)
Definition fetchCalls (l : list Event) : list File :=
  flat_map (fun ev => match ev with
                      | FetchCall _ _ f => [f]
                      | _ => []
                      end) l.

End SubmitPdf.

(* ================================================================== *)
(** * Concrete collaborators

    Small instances of the libraries the components are written against,
    on which the general statements below are exercised. *)
(* ================================================================== *)

Module Sample.
Import JS Eff EditorTsx.

(** An editor whose documents are JSON trees kept as they are given; a
    tree holding [undefined] has no serialisation and [getJSON] throws on
    it. *)
Fixpoint hasUndefined (v : Value) : bool :=
  match v with
  | JUndefined => true
  | JArr items => existsb hasUndefined items
  | JObj props => existsb (fun kv => hasUndefined (snd kv)) props
  | _ => false
  end.

#[local] Instance treeEditor : Tiptap := {|
  Doc := Value;
  Selection := nat;
  createDocument := fun content => content;
  toJSON := fun d =>
    if hasUndefined d
    then Throw (ErrorObject "RangeError" "Invalid document")
    else Normal d;
  selectionAtStart := fun _ => O;
  mapSelection := fun _ sel _ => sel
|}.

(** A paragraph holding one text run. *)
Definition paragraph (text : string) : Value :=
  JObj [ ("type", JStr "paragraph");
         ("attrs", JObj [ ("id", JNull) ]);
         ("content", JArr [ JObj [ ("type", JStr "text");
                                   ("text", JStr text) ] ]) ].

(** The same document written with its two top-level properties in either
    order. *)
Definition helloDoc : Value :=
  JObj [ ("type", JStr "doc"); ("content", JArr [ paragraph "hello" ]) ].

Definition helloDoc_contentFirst : Value :=
  JObj [ ("content", JArr [ paragraph "hello" ]); ("type", JStr "doc") ].

Definition otherDoc : Value :=
  JObj [ ("type", JStr "doc"); ("content", JArr [ paragraph "other" ]) ].

(** A document [getJSON] cannot serialise. *)
Definition brokenDoc : Value :=
  JObj [ ("type", JStr "doc"); ("content", JArr [ JUndefined ]) ].

Definition editing (d : Value) : EditorState := {| doc := d; selection := 3 |}.

Definition worldWith (d : Value) : World :=
  {| editor := Some (editing d); trace := [] |}.

(** An identifier source whose draws are numbered. *)
Definition countingSource : Uuid.Source :=
  {| Uuid.stream := fun n => "uuid-" ++ string_of_Z (Z.of_nat n);
     Uuid.position := 0 |}.

(** A typesetter that accepts a source exactly when its braces balance. *)
Fixpoint balanced (depth : nat) (s : string) : bool :=
  match s with
  | EmptyString => Nat.eqb depth 0
  | String c rest =>
      if Ascii.eqb c "{"%char then balanced (S depth) rest
      else if Ascii.eqb c "}"%char then
        match depth with
        | O => false
        | S d => balanced d rest
        end
      else balanced depth rest
  end.

#[local] Instance braceKatex : Katex := {|
  Tree := string;
  parseTree := fun src _ =>
    if balanced 0 src then Succeeded src
    else ParseError "KaTeX parse error: unbalanced braces";
  buildMarkup := fun t _ =>
    Succeeded ("<span class='katex'>" ++ t ++ "</span>");
  errorMarkup := fun src msg _ =>
    "<span class='katex-error' title='" ++ msg ++ "'>" ++ src ++ "</span>"
|}.

#[local] Instance stringDom : Dom := {|
  DomNode := string;
  innerHTML := fun html => if html =? "" then [] else [html];
  mergeAttributes := fun a b => List.app a b
|}.

(** Files and responses of the upload workflow. *)
Definition textFile : SubmitPdf.File :=
  {| SubmitPdf.name := "notes.txt"; SubmitPdf.type := "text/plain" |}.

Definition pdfFile : SubmitPdf.File :=
  {| SubmitPdf.name := "paper.pdf"; SubmitPdf.type := "application/pdf" |}.

Definition respond (ok : bool) (body : Completion Value) : SubmitPdf.Network :=
  fun _ => ret {| SubmitPdf.ok := ok; SubmitPdf.json := lift body |}.

Definition unreachable : SubmitPdf.Network :=
  fun _ => throw (ErrorObject "TypeError" "Failed to fetch").

Definition withResult (r : Value) : SubmitPdf.World :=
  {| SubmitPdf.state :=
       {| SubmitPdf.data := r; SubmitPdf.error := "";
          SubmitPdf.isLoading := false |};
     SubmitPdf.trace := [] |}.

End Sample.

(* ================================================================== *)
(** * More of [src/components/Editor.tsx]: markup attributes and links *)
(* ================================================================== *)

(** Regular expressions of the shape the link validator uses, matched the
    way the language does: left to right, an optional part tried first and
    given up when what follows does not match. *)
Module RegExp.

Inductive Pattern : Type :=
| Chr (c : ascii)
| Opt (p : Pattern)
| Seq (p q : Pattern).

(** Match [p] at the head of [s], then hand what is left to [k]. *)
Fixpoint matchAt (p : Pattern) (s : string) (k : string -> bool) : bool :=
  match p with
  | Chr c =>
      match s with
      | String c' rest => if Ascii.eqb c c' then k rest else false
      | EmptyString => false
      end
  | Opt q => matchAt q s k || k s
  | Seq q r => matchAt q s (fun s' => matchAt r s' k)
  end.

(** [/^p/.test(s)]. *)
Definition test_anchored (p : Pattern) (s : string) : bool :=
  matchAt p s (fun _ => true).

End RegExp.

Module Schema.
Import JS Eff EditorTsx RegExp.

(** The pattern [/^https?:\/\//] of [Link.configure]. *)
Definition linkPattern : Pattern :=
  Seq (Chr "h") (Seq (Chr "t") (Seq (Chr "t") (Seq (Chr "p")
    (Seq (Opt (Chr "s")) (Seq (Chr ":") (Seq (Chr "/") (Chr "/"))))))).

(** [validate: (href) => /^https?:\/\//.test(href)]. *)
Definition validate (href : string) : bool := test_anchored linkPattern href.

(** An element of parsed markup, as the [parseHTML] callbacks read it. *)
Record Element : Type := { tagName : string; attrs : HTMLAttrs }.

(** [element.getAttribute(name)], [null] when the attribute is absent. *)
Fixpoint attribute (name : string) (l : HTMLAttrs) : option string :=
  match l with
  | [] => None
  | (k, v) :: rest => if k =? name then Some v else attribute name rest
  end.

Definition getAttribute (element : Element) (name : string) : option string :=
  attribute name (attrs element).

(** [interface MathAttributes { formula: string }]. *)
Record MathAttributes : Type := { formula : string }.

(** The [formula] attribute of [Node.create({ name: "math", ... })]. *)
Definition Math_formula_default : string := "".

Definition Math_formula_parseHTML (element : Element) : option string :=
  getAttribute element "data-formula".

Definition Math_formula_renderHTML (attributes : MathAttributes) : HTMLAttrs :=
  [ ("data-formula", formula attributes) ].

(** The parse rule of the math node, [tag: 'div[data-type="math"]']. *)
Definition Math_parseHTML (element : Element) : bool :=
  (tagName element =? "div") &&
  match getAttribute element "data-type" with
  | Some v => v =? "math"
  | None => false
  end.

(** The element a rendered fragment becomes in the page. *)
Definition elementOf {D : Dom} (frag : MathFragment) : Element :=
  {| tagName := tag frag; attrs := attributes frag |}.

End Schema.

(* ================================================================== *)
(** * [src/app/page.tsx] *)
(* ================================================================== *)

Module Page.
Import JS Eff EditorTsx.

(** [useState<any>(null)]. *)
Definition Home_initial : Value := JNull.

(** The state setter [setContent], handed to [SubmitPdf] as its
    [onContentChange]; a setter does not throw. *)
Definition setContent : Value -> Completion unit := fun _ => Normal tt.

(** The [content] cell after the observer calls among [events]. *)
Definition contentAfter (content : Value) (events : list SubmitPdf.Event)
  : Value :=
  fold_left (fun c ev => match ev with
                         | SubmitPdf.ContentChangeCall v => v
                         | _ => c
                         end) events content.

(** The values handed to the observer among [events]. *)
Definition contentChangeCalls (events : list SubmitPdf.Event) : list Value :=
  flat_map (fun ev => match ev with
                      | SubmitPdf.ContentChangeCall v => [v]
                      | _ => []
                      end) events.

(** A network during whose awaits nothing else happens on the page: the
    request and the reading of the body leave the component as it is. *)
Definition quiet (net : SubmitPdf.Network) : Prop :=
  forall f w,
    snd (net f w) = w /\
    forall resp, fst (net f w) = Normal resp ->
      forall w', snd (SubmitPdf.json resp w') = w'.

(** [{content && <Editor content={content} ... />}]: the prop of the
    editor when it is on the page. *)
Definition Home_editor (content : Value) : option Value :=
  if truthy content then Some content else None.

(** What a rendering of [Home] does to the editor when the [content]
    cell has gone from [previous] to [content]: a component under
    [content && ...] is mounted when the condition becomes truthy, stays
    (and is handed the new prop) while it remains truthy, and is taken off
    the page when it becomes falsy.  [useEditor] reads its [content]
    option when the editor is created, that is on mounting only. *)
Inductive EditorChange {T : Tiptap} : Type :=
| Absent
| Mounted (start : EditorState)
| Kept (prop : Value)
| Unmounted.

Definition Home_rerender {T : Tiptap} (previous content : Value)
  : EditorChange :=
  match Home_editor previous, Home_editor content with
  | None, None => Absent
  | None, Some c => Mounted (initialize c)
  | Some _, Some c => Kept c
  | Some _, None => Unmounted
  end.

End Page.

(* ================================================================== *)
(** * More concrete collaborators *)
(* ================================================================== *)

Module Sample2.
Import JS Eff EditorTsx.

(** An editor that serialises an object with its [type] property first,
    whatever order it was given in. *)
Definition typeFirst (v : Value) : Value :=
  match v with
  | JObj props =>
      JObj (List.app (filter (fun kv => fst kv =? "type") props)
                     (filter (fun kv => negb (fst kv =? "type")) props))
  | _ => v
  end.

#[local] Instance orderingEditor : Tiptap := {|
  Doc := Value;
  Selection := nat;
  createDocument := fun content => content;
  toJSON := fun d => Normal (typeFirst d);
  selectionAtStart := fun _ => O;
  mapSelection := fun _ _ _ => O
|}.

(** Attribute objects merged: the attributes of the second object, then
    those of the first that the second does not set. *)
Definition override (a b : HTMLAttrs) : HTMLAttrs :=
  List.app b
    (filter (fun kv => match Schema.attribute (fst kv) b with
                       | None => true
                       | Some _ => false
                       end) a).

#[local] Instance overridingDom : Dom := {|
  DomNode := string;
  innerHTML := fun html => if html =? "" then [] else [html];
  mergeAttributes := override
|}.

(** A typesetter whose parser recurses on braces and runs out of stack
    past a thousand levels; below that it is the one that checks balance. *)
Fixpoint deepest (depth most : nat) (s : string) : nat :=
  match s with
  | EmptyString => most
  | String c rest =>
      if Ascii.eqb c "{"%char
      then deepest (S depth) (Nat.max most (S depth)) rest
      else if Ascii.eqb c "}"%char then deepest (Nat.pred depth) most rest
      else deepest depth most rest
  end.

#[local] Instance stackKatex : Katex := {|
  Tree := string;
  parseTree := fun src options =>
    if Nat.ltb 1000 (deepest 0 0 src)
    then Raised (ErrorObject "RangeError" "Maximum call stack size exceeded")
    else parseTree (Katex := Sample.braceKatex) src options;
  buildMarkup := buildMarkup (Katex := Sample.braceKatex);
  errorMarkup := errorMarkup (Katex := Sample.braceKatex)
|}.

(** [n] opening braces, then [n] closing ones. *)
Fixpoint closing (n : nat) : string :=
  match n with
  | O => ""
  | S n' => String "}" (closing n')
  end.

Fixpoint nested (n : nat) (inner : string) : string :=
  match n with
  | O => inner
  | S n' => String "{" (nested n' inner)
  end.

Definition nestedBraces (n : nat) : string := nested n (closing n).

(** The accept filter for [{'application/pdf': ['.pdf']}]: the declared
    type is the PDF type, or the name ends in [.pdf]. *)
Fixpoint endsWith (suffix s : string) : bool :=
  if s =? suffix then true
  else match s with
       | EmptyString => false
       | String _ rest => endsWith suffix rest
       end.

Definition pdfAccept (f : SubmitPdf.File) : bool :=
  (SubmitPdf.type f =? "application/pdf") ||
  endsWith ".pdf" (SubmitPdf.name f).

(** A file named as a PDF whose declared type is another. *)
Definition misdeclaredPdf : SubmitPdf.File :=
  {| SubmitPdf.name := "scan.pdf";
     SubmitPdf.type := "application/octet-stream" |}.

End Sample2.

(* ================================================================== *)
(** * JSON values and their text *)
(* ================================================================== *)

Module Json.
Import JS.

(** A JSON value: a value that holds [undefined] nowhere.  These are the
    values [response.json()] produces and an editor serialises to. *)
Fixpoint isJSON (v : Value) : bool :=
  match v with
  | JUndefined => false
  | JArr items => forallb isJSON items
  | JObj props => forallb (fun kv => isJSON (snd kv)) props
  | _ => true
  end.

(** The text of a value as it appears inside an array. *)
Definition text (v : Value) : string :=
  match JSON_stringify v with
  | Some t => t
  | None => "null"
  end.

Definition is_digit (c : ascii) : bool :=
  Nat.leb 48 (nat_of_ascii c) && Nat.leb (nat_of_ascii c) 57.

(** A text that does not begin with a digit. *)
Definition no_digit_head (x : string) : Prop :=
  match x with
  | EmptyString => True
  | String c _ => is_digit c = false
  end.

Definition hex_value (c : ascii) : nat :=
  let n := nat_of_ascii c in
  if Nat.leb n 57 then n - 48 else n - 87.

(** Reading back one quoted character from the head of a text: the
    inverse of [quote_char]. *)
Definition unquote_char (s : string) : option (ascii * string) :=
  match s with
  | EmptyString => None
  | String c rest =>
      if Nat.eqb (nat_of_ascii c) 92 then
        match rest with
        | EmptyString => None
        | String e rest' =>
            let n := nat_of_ascii e in
            if Nat.eqb n 34 then Some (ascii_of_nat 34, rest')
            else if Nat.eqb n 92 then Some (ascii_of_nat 92, rest')
            else if Nat.eqb n 98 then Some (ascii_of_nat 8, rest')
            else if Nat.eqb n 116 then Some (ascii_of_nat 9, rest')
            else if Nat.eqb n 110 then Some (ascii_of_nat 10, rest')
            else if Nat.eqb n 102 then Some (ascii_of_nat 12, rest')
            else if Nat.eqb n 114 then Some (ascii_of_nat 13, rest')
            else
              match rest' with
              | String _ (String _ (String h (String l rest''))) =>
                  Some (ascii_of_nat (16 * hex_value h + hex_value l), rest'')
              | _ => None
              end
        end
      else Some (c, rest)
  end.

(** The members of a list, each with the separator before it. *)
Fixpoint sepBefore (sep : string) (l : list string) : string :=
  match l with
  | [] => ""
  | x :: rest => sep ++ x ++ sepBefore sep rest
  end.

(** The text of one property of an object. *)
Definition entry (kv : string * Value) : string :=
  quoteJSONString (fst kv) ++ ":" ++ text (snd kv).

End Json.

(* ================================================================== *)
(** * Lemmas on validity and on the synchronisation effect *)
(* ================================================================== *)

Import JS Eff EditorTsx.
Local Open Scope eff_scope.

Lemma isValidContent_true_iff (v : Value) :
  isValidContent v = JBool true <->
  exists props items,
    v = JObj props /\
    lookup "type" props = Some (JStr "doc") /\
    lookup "content" props = Some (JArr items).
Proof.
  split.
  - destruct v as [| |b|n|s|items|props]; unfold isValidContent, prop; simpl;
      try discriminate.
    + destruct b; discriminate.
    + destruct (n =? 0)%Z; discriminate.
    + destruct (s =? ""); discriminate.
    + destruct (lookup "type" props) as [t|] eqn:Ht; simpl; try discriminate.
      destruct t as [| |b|n|s|its|ps]; simpl; try discriminate.
      destruct (s =? "doc") eqn:Hs; simpl; try discriminate.
      apply String.eqb_eq in Hs; subst s.
      destruct (lookup "content" props) as [c|] eqn:Hc; simpl; try discriminate.
      destruct c as [| |b|n|s|its|ps]; simpl; try discriminate.
      intros _. exists props, its. auto.
  - intros (props & items & -> & Ht & Hc).
    unfold isValidContent, prop; simpl. rewrite Ht, Hc. reflexivity.
Qed.

Lemma isValidContent_truthy (v : Value) :
  truthy (isValidContent v) = true <-> isValidContent v = JBool true.
Proof.
  unfold isValidContent.
  destruct (truthy v) eqn:Hv; simpl.
  - destruct (typeof v =? "object"); simpl; [|split; discriminate].
    destruct (strictEqualsString (prop v "type") "doc"); simpl;
      [|split; discriminate].
    destruct (Array_isArray (prop v "content")); simpl; split; congruence.
  - rewrite Hv. split; [discriminate|]. intros ->. simpl in Hv. discriminate.
Qed.

Lemma isValidContent_true_truthy (v : Value) :
  isValidContent v = JBool true -> truthy v = true.
Proof.
  intros Hv. apply isValidContent_true_iff in Hv.
  destruct Hv as (props & items & -> & _). reflexivity.
Qed.

Lemma option_string_eqb_refl (a : option string) : option_string_eqb a a = true.
Proof. destruct a as [x|]; simpl; [apply String.eqb_refl | reflexivity]. Qed.

Section ComponentFacts.
Context {T : Tiptap}.

Lemma world_eta (w : World) : {| editor := editor w; trace := trace w |} = w.
Proof. destruct w; reflexivity. Qed.

Lemma world_nil (w : World) :
  {| editor := editor w; trace := trace w ++ [] |} = w.
Proof. rewrite app_nil_r. apply world_eta. Qed.

(** What [onUpdate] does, case by case on the serialisation and on the
    host's callback. *)
Lemma onUpdate_run (onChange : option (Value -> Completion unit))
  (e : EditorState) (w : World) :
  exists new,
    onUpdate onChange e w =
      (Normal tt, {| editor := editor w; trace := trace w ++ new |}) /\
    Forall (fun j => isValidContent j = JBool true /\ getJSON e = Normal j)
           (onChangeCalls new) /\
    (forall err, getJSON e = Throw err ->
       new = [ConsoleError "Failed to get editor content:" err]).
Proof.
  unfold onUpdate, try_catch, bind, lift.
  destruct (getJSON e) as [j|err] eqn:Hj.
  - destruct (truthy (isValidContent j)) eqn:Hv.
    + apply isValidContent_truthy in Hv.
      destruct onChange as [f|]; simpl.
      * unfold bind, emit, modify, lift; simpl.
        destruct (f j) as [[]|err'].
        -- exists [OnChangeCall j]. repeat split; simpl; auto. discriminate.
        -- exists [OnChangeCall j;
                   ConsoleError "Failed to get editor content:" err'].
           rewrite <- app_assoc. repeat split; simpl; auto. discriminate.
      * exists []. unfold ret. rewrite world_nil.
        repeat split; simpl; auto. discriminate.
    + exists []. unfold ret. rewrite world_nil.
      repeat split; simpl; auto. discriminate.
  - exists [ConsoleError "Failed to get editor content:" err].
    unfold emit, modify. repeat split; simpl; auto.
    intros err' Heq. congruence.
Qed.

(** The effect is a no-operation when the text of the prop equals the text
    of the editor's document. *)
Lemma syncEffect_same_text (content : Value) (w : World) (e : EditorState)
  (cur : Value) :
  editor w = Some e ->
  isValidContent content = JBool true ->
  getJSON e = Normal cur ->
  JSON_stringify content = JSON_stringify cur ->
  syncEffect content w = (Normal tt, w).
Proof.
  intros He Hv Hcur Htxt.
  unfold syncEffect, bind, get. rewrite He.
  rewrite (isValidContent_true_truthy _ Hv).
  unfold try_catch, bind, lift. rewrite Hv. simpl. rewrite Hcur.
  rewrite Htxt, option_string_eqb_refl. reflexivity.
Qed.

(** The effect on a truthy value that is no document. *)
Lemma syncEffect_invalid (content : Value) (w : World) (e : EditorState) :
  editor w = Some e ->
  truthy content = true ->
  truthy (isValidContent content) = false ->
  syncEffect content w =
    (Normal tt,
     {| editor := Some (replaceDocument defaultContent e);
        trace := trace w ++ [ConsoleWarn "Invalid content provided to Editor";
                             SetContentCall defaultContent false] |}).
Proof.
  intros He Ht Hv.
  unfold syncEffect, bind, get. rewrite He, Ht.
  unfold try_catch, bind. rewrite Hv.
  unfold emit, setContent, modify; simpl. rewrite He, <- app_assoc.
  reflexivity.
Qed.

(** The effect on a falsy value, or before the editor exists. *)
Lemma syncEffect_falsy (content : Value) (w : World) :
  truthy content = false -> syncEffect content w = (Normal tt, w).
Proof.
  intros Ht. unfold syncEffect, bind, get.
  destruct (editor w); [rewrite Ht|]; reflexivity.
Qed.

(** The effect on a document, by the outcome of the comparison of texts. *)
Lemma syncEffect_valid (content : Value) (w : World) (e : EditorState)
  (cur : Value) :
  editor w = Some e ->
  isValidContent content = JBool true ->
  getJSON e = Normal cur ->
  syncEffect content w =
    (Normal tt,
     if option_string_eqb (JSON_stringify content) (JSON_stringify cur)
     then w
     else {| editor := Some (replaceDocument content e);
             trace := trace w ++ [SetContentCall content false] |}).
Proof.
  intros He Hv Hcur.
  unfold syncEffect, bind, get. rewrite He.
  rewrite (isValidContent_true_truthy _ Hv).
  unfold try_catch, bind, lift. rewrite Hv. simpl. rewrite Hcur.
  destruct (option_string_eqb _ _); simpl; [reflexivity|].
  unfold setContent, modify. rewrite He. reflexivity.
Qed.

Lemma getJSON_replaceDocument (content : Value) (e : EditorState) :
  getJSON (replaceDocument content e) = toJSON (createDocument content).
Proof. reflexivity. Qed.

Lemma serialized_docOf (w : World) : serialized w = option_map toJSON (docOf w).
Proof. unfold serialized, docOf. destruct (editor w); reflexivity. Qed.

(** The document the effect leaves depends on the document it finds, not on
    the cursor or on the calls made before. *)
Lemma syncEffect_docOf (content : Value) (w w' : World) :
  docOf w = docOf w' ->
  docOf (snd (syncEffect content w)) = docOf (snd (syncEffect content w')).
Proof.
  unfold docOf. intros Hd.
  unfold syncEffect, bind, get.
  destruct (editor w) as [e|] eqn:He, (editor w') as [e'|] eqn:He';
    simpl in Hd; try discriminate; [|simpl; rewrite He, He'; reflexivity].
  injection Hd as Hd.
  destruct (truthy content); [|simpl; rewrite He, He'; simpl; congruence].
  unfold try_catch, bind, lift, getJSON. rewrite <- Hd.
  destruct (truthy (isValidContent content)).
  - destruct (toJSON (doc e)) as [cur|err].
    + unfold when.
      destruct (negb (option_string_eqb (JSON_stringify content)
                                        (JSON_stringify cur))); simpl.
      * rewrite He, He'. reflexivity.
      * rewrite He, He'. simpl. congruence.
    + simpl. rewrite He, He'. reflexivity.
  - simpl. rewrite He, He'. reflexivity.
Qed.

(** Running the effect a second time on the same value leaves the
    document as the first run left it, as long as the documents involved
    serialise. *)
Lemma syncEffect_twice (content : Value) (w : World) (e : EditorState)
  (cur next : Value) :
  editor w = Some e ->
  getJSON e = Normal cur ->
  toJSON (createDocument content) = Normal next ->
  docOf (snd (syncEffect content (snd (syncEffect content w)))) =
  docOf (snd (syncEffect content w)).
Proof.
  intros He Hcur Hnext.
  destruct (truthy content) eqn:Ht.
  2:{ rewrite (syncEffect_falsy content w Ht). simpl.
      rewrite (syncEffect_falsy content w Ht). reflexivity. }
  destruct (truthy (isValidContent content)) eqn:Hv.
  - apply isValidContent_truthy in Hv.
    rewrite (syncEffect_valid content w e cur He Hv Hcur). simpl.
    destruct (option_string_eqb (JSON_stringify content) (JSON_stringify cur))
      eqn:Heq.
    + rewrite (syncEffect_valid content w e cur He Hv Hcur), Heq. reflexivity.
    + erewrite syncEffect_valid;
        [ | simpl; reflexivity | exact Hv
          | rewrite getJSON_replaceDocument; exact Hnext ].
      simpl.
      destruct (option_string_eqb (JSON_stringify content)
                                  (JSON_stringify next)); reflexivity.
  - rewrite (syncEffect_invalid content w e He Ht Hv). simpl.
    erewrite syncEffect_invalid; [ | simpl; reflexivity | exact Ht | exact Hv ].
    reflexivity.
Qed.

(** However often the effect runs on the same value, the serialised
    document stays what the first run made it. *)
Lemma syncEffect_repeated (content : Value) (w : World) (e : EditorState)
  (cur next : Value) (n : nat) :
  editor w = Some e ->
  getJSON e = Normal cur ->
  toJSON (createDocument content) = Normal next ->
  serialized (Nat.iter (S n) (fun x => snd (syncEffect content x)) w) =
  serialized (snd (syncEffect content w)).
Proof.
  intros He Hcur Hnext. rewrite !serialized_docOf. f_equal.
  induction n as [|n IH]; [reflexivity|].
  change (Nat.iter (S (S n)) (fun x => snd (syncEffect content x)) w)
    with (snd (syncEffect content
                 (Nat.iter (S n) (fun x => snd (syncEffect content x)) w))).
  rewrite (syncEffect_docOf content _ _ IH).
  apply (syncEffect_twice content w e cur next); assumption.
Qed.

End ComponentFacts.

(* ================================================================== *)
(** * Properties of the document model and of the editing surface *)
(* ================================================================== *)

(** C6, as the code has it.  [isValidContent] returns [true] exactly on an
    object whose [type] is the string ["doc"] and whose [content] is an
    array, whatever the array holds and whatever other properties the
    object has; on [{}] and on [{type:"doc"}] it returns [false]; on [null]
    it returns [null], the falsy first operand of its chain of [&&]; and its
    callers, which test the result for truthiness, see [true] and nothing
    else as valid. *)
Theorem isValidContent_shallow :
  (forall v,
     isValidContent v = JBool true <->
     exists props items,
       v = JObj props /\
       lookup "type" props = Some (JStr "doc") /\
       lookup "content" props = Some (JArr items)) /\
  (forall items rest,
     isValidContent
       (JObj (("type", JStr "doc") :: ("content", JArr items) :: rest))
     = JBool true) /\
  isValidContent (JObj []) = JBool false /\
  isValidContent (JObj [("type", JStr "doc")]) = JBool false /\
  isValidContent JNull = JNull /\
  (forall v, truthy (isValidContent v) = true <-> isValidContent v = JBool true).
Proof.
  split; [exact isValidContent_true_iff|].
  split; [intros items rest; reflexivity|].
  repeat (split; [reflexivity|]).
  exact isValidContent_truthy.
Qed.

(** C6 as stated fails on [null]: the function does not return [false]
    there but its argument. *)
Lemma isValidContent_null_is_not_false :
  isValidContent JNull = JNull /\ JNull <> JBool false /\
  truthy (isValidContent JNull) = false.
Proof. repeat split. discriminate. Qed.

(** C9.  [onUpdate] always completes normally and leaves the editor as it
    is; every document it hands to [onChange] is the serialisation of the
    editor's state and passes [isValidContent]; when the serialisation
    throws, the exception is logged to the console and [onChange] is not
    called. *)
Theorem onUpdate_emits_valid_documents :
  forall (T : Tiptap) (onChange : option (Value -> Completion unit))
    (e : EditorState) (w : World),
  exists new,
    onUpdate onChange e w =
      (Normal tt, {| editor := editor w; trace := trace w ++ new |}) /\
    Forall (fun j => isValidContent j = JBool true /\ getJSON e = Normal j)
           (onChangeCalls new) /\
    (forall err, getJSON e = Throw err ->
       new = [ConsoleError "Failed to get editor content:" err] /\
       onChangeCalls new = []).
Proof.
  intros T onChange e w.
  destruct (onUpdate_run onChange e w) as (new & Hrun & Hvalid & Hthrow).
  exists new. split; [exact Hrun|]. split; [exact Hvalid|].
  intros err Herr. rewrite (Hthrow err Herr). split; reflexivity.
Qed.

(** A serialisation that throws, on the sample editor: the callback is not
    reached and the handler returns. *)
Lemma onUpdate_emits_valid_documents_witness :
  onUpdate (T := Sample.treeEditor) (Some (fun _ => Normal tt))
    (Sample.editing Sample.brokenDoc) (Sample.worldWith Sample.brokenDoc)
  = (Normal tt,
     {| editor := Some (Sample.editing Sample.brokenDoc);
        trace := [ConsoleError "Failed to get editor content:"
                    (ErrorObject "RangeError" "Invalid document")] |}).
Proof.
  destruct (onUpdate_emits_valid_documents Sample.treeEditor
              (Some (fun _ => Normal tt)) (Sample.editing Sample.brokenDoc)
              (Sample.worldWith Sample.brokenDoc)) as (new & Hrun & _ & Hthrow).
  destruct (Hthrow (ErrorObject "RangeError" "Invalid document") eq_refl)
    as [Hnew _].
  rewrite Hrun, Hnew. reflexivity.
Defined.

(** C2, as the code has it.  With the editor created, a truthy value that
    fails [isValidContent] (such as [{}] and [{type:"doc"}]) makes the effect
    log one console warning, call [setContent(defaultContent, false)] once
    and complete normally, after which the editor holds the document built
    from [defaultContent]; on a falsy value (such as [null]) the effect
    does nothing at all. *)
Theorem syncEffect_malformed_content :
  forall (T : Tiptap),
  (forall content w e,
     editor w = Some e ->
     truthy content = true ->
     truthy (isValidContent content) = false ->
     syncEffect content w =
       (Normal tt,
        {| editor := Some (replaceDocument defaultContent e);
           trace := trace w ++
                    [ConsoleWarn "Invalid content provided to Editor";
                     SetContentCall defaultContent false] |}) /\
     serialized (snd (syncEffect content w)) =
       Some (toJSON (createDocument defaultContent))) /\
  (truthy (JObj []) = true /\ truthy (isValidContent (JObj [])) = false) /\
  (truthy (JObj [("type", JStr "doc")]) = true /\
   truthy (isValidContent (JObj [("type", JStr "doc")])) = false) /\
  (forall content w,
     truthy content = false -> syncEffect content w = (Normal tt, w)) /\
  truthy JNull = false.
Proof.
  intros T. split.
  - intros content w e He Ht Hv.
    rewrite (syncEffect_invalid content w e He Ht Hv). split; reflexivity.
  - repeat split. intros content w Ht. apply syncEffect_falsy; assumption.
Qed.

(** The empty object given to the sample editor while it holds a document. *)
Lemma syncEffect_malformed_content_witness :
  serialized (T := Sample.treeEditor)
    (snd (syncEffect (JObj []) (Sample.worldWith Sample.helloDoc)))
  = Some (Normal defaultContent).
Proof.
  destruct (syncEffect_malformed_content Sample.treeEditor) as [H _].
  destruct (H (JObj []) (Sample.worldWith Sample.helloDoc)
              (Sample.editing Sample.helloDoc) eq_refl eq_refl eq_refl)
    as [_ Hs].
  rewrite Hs. reflexivity.
Defined.

(** C2 as stated fails on [null]: the effect makes no call, and the editor
    keeps the document it had, which is not the default one. *)
Lemma syncEffect_null_keeps_document :
  truthy (isValidContent JNull) = false /\
  syncEffect (T := Sample.treeEditor) JNull (Sample.worldWith Sample.helloDoc)
  = (Normal tt, Sample.worldWith Sample.helloDoc) /\
  serialized (T := Sample.treeEditor)
    (snd (syncEffect JNull (Sample.worldWith Sample.helloDoc)))
  = Some (Normal Sample.helloDoc) /\
  Sample.helloDoc <> defaultContent.
Proof. repeat split. discriminate. Qed.

(** C1, as the code has it.  The guard of the effect compares the
    [JSON.stringify] texts of the two documents.  (1) When the prop is a
    document whose text equals the text of the editor's serialised document,
    the effect makes no call and changes nothing.  (2) However
    often the effect runs again on the same value, the serialised document
    stays what the first run made it (the documents involved being
    serialisable).  (3) After an edit
    of the user, feeding any document that [onUpdate] handed to [onChange]
    back as the prop makes no call and changes nothing. *)
Theorem syncEffect_guard :
  forall (T : Tiptap),
  (forall content w e cur,
     editor w = Some e ->
     isValidContent content = JBool true ->
     getJSON e = Normal cur ->
     JSON_stringify content = JSON_stringify cur ->
     syncEffect content w = (Normal tt, w)) /\
  (forall content w e cur next n,
     editor w = Some e ->
     getJSON e = Normal cur ->
     toJSON (createDocument content) = Normal next ->
     serialized (Nat.iter (S n) (fun x => snd (syncEffect content x)) w) =
     serialized (snd (syncEffect content w))) /\
  (forall onChange e' w,
     exists new,
       trace (snd (localEdit onChange e' w)) = (trace w ++ new)%list /\
       forall j, In j (onChangeCalls new) ->
         syncEffect j (snd (localEdit onChange e' w)) =
           (Normal tt, snd (localEdit onChange e' w))).
Proof.
  intros T. split; [|split].
  - intros content w e cur. apply syncEffect_same_text.
  - intros content w e cur next n. apply syncEffect_repeated.
  - intros onChange e' w.
    unfold localEdit, bind, modify.
    destruct (onUpdate_run onChange e'
                {| editor := Some e'; trace := trace w |})
      as (new & Hrun & Hvalid & _).
    rewrite Hrun. simpl. exists new. split; [reflexivity|].
    intros j Hj. rewrite Forall_forall in Hvalid.
    destruct (Hvalid j Hj) as [Hv Hcur].
    apply (syncEffect_same_text j _ e' j); auto.
Qed.

(** The three parts on the sample editor: the document it holds given back
    to it, another document given three times, and an edit fed back. *)
Lemma syncEffect_guard_witness :
  syncEffect (T := Sample.treeEditor) Sample.helloDoc
    (Sample.worldWith Sample.helloDoc)
  = (Normal tt, Sample.worldWith Sample.helloDoc) /\
  serialized (T := Sample.treeEditor)
    (Nat.iter 3 (fun x => snd (syncEffect Sample.otherDoc x))
       (Sample.worldWith Sample.helloDoc))
  = Some (Normal Sample.otherDoc) /\
  (let edited :=
     snd (localEdit (T := Sample.treeEditor) (Some (fun _ => Normal tt))
            (Sample.editing Sample.otherDoc)
            (Sample.worldWith Sample.helloDoc)) in
   onChangeCalls (trace edited) = [Sample.otherDoc] /\
   syncEffect Sample.otherDoc edited = (Normal tt, edited)).
Proof.
  destruct (syncEffect_guard Sample.treeEditor) as (Hsame & Hrepeat & Hfeed).
  split; [|split].
  - apply (Hsame Sample.helloDoc (Sample.worldWith Sample.helloDoc)
             (Sample.editing Sample.helloDoc) Sample.helloDoc);
      reflexivity.
  - rewrite (Hrepeat Sample.otherDoc (Sample.worldWith Sample.helloDoc)
               (Sample.editing Sample.helloDoc) Sample.helloDoc
               Sample.otherDoc 2 eq_refl eq_refl eq_refl).
    reflexivity.
  - split; [reflexivity|].
    destruct (Hfeed (Some (fun _ => Normal tt))
                (Sample.editing Sample.otherDoc)
                (Sample.worldWith Sample.helloDoc)) as (new & Htrace & Hback).
    apply Hback. simpl in Htrace. subst new. simpl. left. reflexivity.
Defined.

(** C1 as stated fails: a document that is deeply equal to the editor's
    own, with its two top-level properties in the other order, passes
    [isValidContent] and still makes the effect call [setContent]. *)
Lemma syncEffect_deepEqual_replaces :
  isValidContent Sample.helloDoc_contentFirst = JBool true /\
  getJSON (T := Sample.treeEditor) (Sample.editing Sample.helloDoc)
  = Normal Sample.helloDoc /\
  deepEqual Sample.helloDoc_contentFirst Sample.helloDoc = true /\
  setContentCalls
    (trace (snd (syncEffect (T := Sample.treeEditor)
                   Sample.helloDoc_contentFirst
                   (Sample.worldWith Sample.helloDoc))))
  = [Sample.helloDoc_contentFirst].
Proof. repeat split. Qed.

(* ================================================================== *)
(** * Properties of node identity and of the math renderer *)
(* ================================================================== *)

Lemma id_or_fresh_stored (i : string) (g : Uuid.Source) :
  i <> "" -> id_or_fresh {| id := Some i |} g = (Normal i, g).
Proof.
  intros Hi. unfold id_or_fresh; simpl.
  destruct (i =? "") eqn:E; [apply String.eqb_eq in E; contradiction|].
  reflexivity.
Qed.

Lemma id_or_fresh_absent (a : NodeAttributes) (g : Uuid.Source) :
  id a = None \/ id a = Some "" ->
  id_or_fresh a g = Uuid.uuidv4 g.
Proof.
  intros [Ha|Ha]; unfold id_or_fresh; rewrite Ha; reflexivity.
Qed.

(** The two [id] renderers the source writes have one body. *)
Lemma written_renderer_body
  (render : NodeAttributes -> M Uuid.Source HTMLAttrs) :
  render = addNodeId_renderHTML \/ render = Math_id_renderHTML ->
  forall a g, render a g =
    match id_or_fresh a g with
    | (Normal i, g') => (Normal (idAttrs i), g')
    | (Throw e, g') => (Throw e, g')
    end.
Proof. intros [-> | ->] a g; reflexivity. Qed.

Lemma renderTimes_stored
  (render : NodeAttributes -> M Uuid.Source HTMLAttrs)
  (i : string) (g : Uuid.Source) (n : nat) :
  render = addNodeId_renderHTML \/ render = Math_id_renderHTML ->
  i <> "" ->
  renderTimes render {| id := Some i |} n g = (Normal (repeat (idAttrs i) n), g).
Proof.
  intros Hr Hi. induction n as [|n IH]; [reflexivity|].
  simpl. unfold bind.
  rewrite (written_renderer_body render Hr), (id_or_fresh_stored i g Hi), IH.
  reflexivity.
Qed.

Lemma renderTimes_absent
  (render : NodeAttributes -> M Uuid.Source HTMLAttrs)
  (a : NodeAttributes) (n : nat) :
  render = addNodeId_renderHTML \/ render = Math_id_renderHTML ->
  id a = None \/ id a = Some "" ->
  forall g,
    renderTimes render a n g =
      (Normal (map (fun j => idAttrs (Uuid.stream g (j + Uuid.position g)))
                   (seq 0 n)),
       advanced g n).
Proof.
  intros Hr Ha. induction n as [|n IH]; intros g.
  - destruct g; reflexivity.
  - simpl. unfold bind.
    rewrite (written_renderer_body render Hr), (id_or_fresh_absent a g Ha).
    unfold Uuid.uuidv4 at 1. rewrite IH. unfold ret, advanced. simpl.
    rewrite <- seq_shift, map_map. f_equal; [f_equal; f_equal|].
    + apply map_ext. intros j. rewrite Nat.add_succ_r. reflexivity.
    + rewrite Nat.add_succ_r. reflexivity.
Qed.

Lemma idRenderer_none (k : NodeKind) : idRenderer k = None.
Proof. destruct k; reflexivity. Qed.

Lemma renderNodeId_times (k : NodeKind) (a : NodeAttributes)
  (g : Uuid.Source) (n : nat) :
  renderTimes (renderNodeId k) a n g = (Normal (repeat [] n), g).
Proof.
  assert (Hnone : renderNodeId k a = ret []).
  { unfold renderNodeId. rewrite (idRenderer_none k). reflexivity. }
  induction n as [|n IH]; [reflexivity|].
  simpl. rewrite Hnone. unfold bind at 1. unfold ret at 1.
  unfold bind at 1. rewrite IH. reflexivity.
Qed.

(** C3, where the code departs from it.  Every [addAttributes] that
    declares the [id] attribute is handed to [configure], so for no node
    kind does the editor call an [id] renderer: however often a node is
    rendered, with or without a stored [id], no identifier is shown for it
    and none is drawn.  And the renderer the source writes, were it called,
    keeps nothing either: on attributes without an [id] its [j]-th call
    shows the [j]-th next draw of the generator, so the identifier shown
    changes from one rendering to the next. *)
Theorem node_id_never_shown :
  (forall k, idRenderer k = None) /\
  (forall k a g n,
     renderTimes (renderNodeId k) a n g = (Normal (repeat [] n), g)) /\
  (forall render a g n,
     render = addNodeId_renderHTML \/ render = Math_id_renderHTML ->
     id a = None \/ id a = Some "" ->
     renderTimes render a n g
     = (Normal (map (fun j => idAttrs (Uuid.stream g (j + Uuid.position g)))
                    (seq 0 n)),
        advanced g n)).
Proof.
  split; [exact idRenderer_none|]. split; [exact renderNodeId_times|].
  intros render a g n Hr Ha. apply renderTimes_absent; assumption.
Qed.

(** A paragraph without identifier rendered twice: the editor shows no
    identifier either time; the renderer of the source, called by hand,
    gives two different ones. *)
Lemma node_id_never_shown_witness :
  fst (renderTimes (renderNodeId Paragraph) addNodeId_default 2
         Sample.countingSource)
  = Normal [[]; []] /\
  fst (renderTimes addNodeId_renderHTML addNodeId_default 2
         Sample.countingSource)
  = Normal [idAttrs "uuid-0"; idAttrs "uuid-1"].
Proof.
  destruct node_id_never_shown as (_ & Hshown & Hwritten).
  split.
  - rewrite (Hshown Paragraph addNodeId_default Sample.countingSource 2).
    reflexivity.
  - rewrite (Hwritten addNodeId_renderHTML addNodeId_default
               Sample.countingSource 2 (or_introl eq_refl)
               (or_introl eq_refl)).
    reflexivity.
Defined.

(** [Math.renderHTML] on a formula string, by what the typesetter comes
    to. *)
Lemma Math_renderHTML_typeset (K : Katex) (D : Dom) (f : string)
  (HTMLAttributes : HTMLAttrs) :
  Math_renderHTML (JStr f) HTMLAttributes
  = match typeset f mathOptions with
    | Succeeded html => Normal (fragmentOf HTMLAttributes html)
    | ParseError msg =>
        Normal (fragmentOf HTMLAttributes (errorMarkup f msg mathOptions))
    | Raised e => Throw e
    end.
Proof.
  assert (Hor : or_else (JStr f) (JStr "") = JStr f).
  { unfold or_else; simpl. destruct (f =? "") eqn:E; simpl;
      [apply String.eqb_eq in E; subst|]; reflexivity. }
  unfold Math_renderHTML. rewrite Hor.
  unfold katex_renderToString; simpl.
  destruct (typeset f mathOptions); reflexivity.
Qed.

(** C7, where the code departs from it.  [Math.renderHTML] calls the
    typesetter with [throwOnError: false] and catches nothing itself.  So a
    formula the typesetter answers with a [ParseError] is rendered as error
    markup, and one it typesets is rendered as such; but any other
    exception the typesetter raises on a formula (a [RangeError] when the
    formula nests deeper than the stack allows) comes out of
    [renderHTML]. *)
Theorem Math_renderHTML_rethrows :
  forall (K : Katex) (D : Dom) (f : string) (HTMLAttributes : HTMLAttrs),
  (forall e,
     typeset f mathOptions = Raised e ->
     Math_renderHTML (JStr f) HTMLAttributes = Throw e) /\
  (forall msg,
     typeset f mathOptions = ParseError msg ->
     Math_renderHTML (JStr f) HTMLAttributes
     = Normal (fragmentOf HTMLAttributes (errorMarkup f msg mathOptions))) /\
  (forall html,
     typeset f mathOptions = Succeeded html ->
     Math_renderHTML (JStr f) HTMLAttributes
     = Normal (fragmentOf HTMLAttributes html)).
Proof.
  intros K D f attrs. rewrite (Math_renderHTML_typeset K D f attrs).
  repeat split; intros x Hx; rewrite Hx; reflexivity.
Qed.

(** Three thousand nested braces given to a typesetter whose parser runs
    out of stack past a thousand. *)
Lemma Math_renderHTML_rethrows_witness :
  Math_renderHTML (K := Sample2.stackKatex) (D := Sample.stringDom)
    (JStr (Sample2.nestedBraces 3000)) []
  = Throw (ErrorObject "RangeError" "Maximum call stack size exceeded").
Proof.
  apply (proj1 (Math_renderHTML_rethrows Sample2.stackKatex Sample.stringDom
                  (Sample2.nestedBraces 3000) [])).
  vm_compute. reflexivity.
Defined.

(** A [formula] attribute that is [null] or [undefined] is rendered as
    the empty formula. *)
Lemma Math_renderHTML_missing_formula (K : Katex) (D : Dom)
  (HTMLAttributes : HTMLAttrs) :
  Math_renderHTML JNull HTMLAttributes
  = Math_renderHTML (JStr "") HTMLAttributes /\
  Math_renderHTML JUndefined HTMLAttributes
  = Math_renderHTML (JStr "") HTMLAttributes.
Proof. split; reflexivity. Qed.

(** The flag matters: the same typesetter asked to throw does throw on a
    source that does not parse. *)
Example katex_throwOnError_throws :
  katex_renderToString (K := Sample.braceKatex) (JStr "\frac{1}{0")
    {| throwOnError := true; displayMode := true; output := "html";
       strict := false |}
  = Throw (ErrorObject "ParseError" "KaTeX parse error: unbalanced braces").
Proof. reflexivity. Qed.

(** A formula that is no string, and not falsy, is not parsed at all. *)
Example Math_renderHTML_number_throws :
  Math_renderHTML (K := Sample.braceKatex) (D := Sample.stringDom) (JNum 5) []
  = Throw (ErrorObject "TypeError"
             "KaTeX can only parse string typed expression").
Proof. reflexivity. Qed.

(* ================================================================== *)
(** * Properties of the upload workflow *)
(* ================================================================== *)

Module UploadFacts.
Import SubmitPdf.

Lemma not_pdf_rejected (t : string) :
  t <> "application/pdf" -> (t =? "") || negb (t =? "application/pdf") = true.
Proof.
  intros Ht. destruct (t =? "application/pdf") eqn:E.
  - apply String.eqb_eq in E. contradiction.
  - apply orb_true_r.
Qed.

Lemma pdf_accepted (t : string) :
  t = "application/pdf" -> (t =? "") || negb (t =? "application/pdf") = false.
Proof. intros ->. reflexivity. Qed.

(** The guarded part of the handler: whatever its body does, the handler
    returns normally with the loading flag down. *)
Lemma guarded_returns (body : M World unit) (w : World) :
  exists w',
    try_finally (try_catch body (fun err => setError (error_text err)))
                (setIsLoading false) w
    = (Normal tt, w') /\
    isLoading (state w') = false.
Proof.
  unfold try_finally, try_catch, setError, setIsLoading, modify.
  destruct (body w) as [[[]|err] w1]; simpl; eexists; split; reflexivity.
Qed.

(** A body that throws [err] in the world [w1] leaves the component
    [failed] there with the text of [err]. *)
Lemma guarded_throw (body : M World unit) (w w1 : World) (err : Thrown) :
  body w = (Throw err, w1) ->
  try_finally (try_catch body (fun err => setError (error_text err)))
              (setIsLoading false) w
  = (Normal tt, failed w1 (error_text err)).
Proof.
  intros Hb. unfold try_finally, try_catch. rewrite Hb. reflexivity.
Qed.

(** The handler on a file of the wrong type. *)
Lemma onDrop_rejected (onContentChange : option (Value -> Completion unit))
  (net : Network) (f : File) (rest : list File) (w : World) :
  type f <> "application/pdf" ->
  onDrop onContentChange net (f :: rest) w
  = (Normal tt,
     {| state := {| data := JNull; error := "Please upload a PDF file";
                    isLoading := false |};
        trace := trace w |}).
Proof.
  intros Ht. unfold onDrop; simpl.
  unfold bind at 1 2 3; simpl.
  rewrite (guarded_throw _ _
             {| state := {| data := JNull; error := ""; isLoading := true |};
                trace := trace w |}
             (ErrorObject "Error" "Please upload a PDF file"));
    [reflexivity|].
  unfold bind at 1. rewrite (not_pdf_rejected _ Ht). reflexivity.
Qed.

(** The handler on a PDF, up to the moment the response is there. *)
Lemma onDrop_responded (onContentChange : option (Value -> Completion unit))
  (net : Network) (f : File) (rest : list File) (w w1 : World)
  (resp : Response) :
  type f = "application/pdf" ->
  net f (uploading w f) = (Normal resp, w1) ->
  onDrop onContentChange net (f :: rest) w
  = try_finally
      (try_catch
         (result <- json resp ;;
          (if negb (ok resp)
           then e <- lift (getProp result "error") ;;
                throw_new_Error (or_else e (JStr "Failed to convert PDF"))
           else ret tt) ;;
          setData result ;;
          emit (ConsoleLog result) ;;
          call_onContentChange onContentChange result)%eff
         (fun err => setError (error_text err)))
      (setIsLoading false) w1.
Proof.
  intros Ht Hnet. unfold onDrop; simpl.
  unfold bind at 1 2 3; simpl.
  unfold try_finally, try_catch.
  unfold bind at 1. rewrite (pdf_accepted _ Ht). unfold ret at 1.
  unfold bind at 1. unfold fetch_convert, bind at 1. simpl.
  change {| state := {| data := JNull; error := ""; isLoading := true |};
            trace := trace w ++ [FetchCall "/api/py/convert" "POST" f] |}
    with (uploading w f).
  rewrite Hnet. reflexivity.
Qed.

(** The handler called with a first file whose [type] is not exactly
    ["application/pdf"] ends with the error text "Please upload a PDF file"
    set and shown, the loading flag down, and the trace of outside calls as
    it was: no request is made. *)
Lemma onDrop_rejects_non_pdf :
  forall (onContentChange : option (Value -> Completion unit))
    (net : Network) (f : File) (rest : list File) (w : World),
  type f <> "application/pdf" ->
  let r := onDrop onContentChange net (f :: rest) w in
  fst r = Normal tt /\
  getError (state (snd r)) = JStr "Please upload a PDF file" /\
  errorBox (render false (state (snd r))) = Some "Please upload a PDF file" /\
  isConverting (state (snd r)) = false /\
  trace (snd r) = trace w /\
  fetchCalls (trace (snd r)) = fetchCalls (trace w).
Proof.
  intros oc net f rest w Ht. cbv zeta.
  rewrite (onDrop_rejected oc net f rest w Ht). simpl.
  repeat split.
Qed.

(** A text file dropped on a fresh component whose network is down. *)
Lemma onDrop_rejects_non_pdf_witness :
  getError
    (state (snd (onDrop None Sample.unreachable [Sample.textFile]
                   {| state := initialState; trace := [] |})))
  = JStr "Please upload a PDF file" /\
  fetchCalls
    (trace (snd (onDrop None Sample.unreachable [Sample.textFile]
                   {| state := initialState; trace := [] |})))
  = [].
Proof.
  destruct (onDrop_rejects_non_pdf None Sample.unreachable Sample.textFile []
              {| state := initialState; trace := [] |})
    as (_ & Herr & _ & _ & _ & Hcalls); [discriminate|].
  split; [exact Herr | exact Hcalls].
Defined.

(** C4, where the code departs from it.  The drop zone stands in front
    of the handler.  A dropped file that its accept filter refuses reaches
    [onDrop] as an empty list: the handler reads [type] of [undefined], and
    ends with the message of that [TypeError] as the error text, which is
    not "Please upload a PDF file"; no request is made and the loading flag
    is down.  The handler's own message is reached only by a file the
    filter lets through although its declared type is not the PDF type. *)
Theorem dropzone_refused_file :
  forall (accepts : File -> bool)
    (onContentChange : option (Value -> Completion unit))
    (net : Network) (f : File) (w : World),
  (accepts f = false ->
   dropFile accepts onContentChange net f w
   = (Normal tt,
      {| state := {| data := JNull;
                     error := "Cannot read properties of undefined (reading 'type')";
                     isLoading := false |};
         trace := trace w |}) /\
   getError (state (snd (dropFile accepts onContentChange net f w)))
   <> JStr "Please upload a PDF file") /\
  (accepts f = true -> type f <> "application/pdf" ->
   dropFile accepts onContentChange net f w
   = (Normal tt,
      {| state := {| data := JNull; error := "Please upload a PDF file";
                     isLoading := false |};
         trace := trace w |})).
Proof.
  intros accepts oc net f w. unfold dropFile. split.
  - intros Hf. rewrite Hf. split; [reflexivity|]. discriminate.
  - intros Hf Ht. rewrite Hf. apply onDrop_rejected. exact Ht.
Qed.

(** A text file dropped on a fresh component: the filter refuses it. *)
Lemma dropzone_refused_file_witness :
  Sample2.pdfAccept Sample.textFile = false /\
  getError
    (state (snd (dropFile Sample2.pdfAccept None Sample.unreachable
                   Sample.textFile
                   {| state := initialState; trace := [] |})))
  = JStr "Cannot read properties of undefined (reading 'type')" /\
  fetchCalls
    (trace (snd (dropFile Sample2.pdfAccept None Sample.unreachable
                   Sample.textFile
                   {| state := initialState; trace := [] |})))
  = [] /\
  getError
    (state (snd (dropFile Sample2.pdfAccept None Sample.unreachable
                   Sample2.misdeclaredPdf
                   {| state := initialState; trace := [] |})))
  = JStr "Please upload a PDF file".
Proof.
  destruct (dropzone_refused_file Sample2.pdfAccept None Sample.unreachable
              Sample.textFile {| state := initialState; trace := [] |})
    as [Hrefused _].
  destruct (Hrefused eq_refl) as [Hrun _].
  destruct (dropzone_refused_file Sample2.pdfAccept None Sample.unreachable
              Sample2.misdeclaredPdf {| state := initialState; trace := [] |})
    as [_ Hthrough].
  split; [reflexivity|]. rewrite Hrun.
  rewrite (Hthrough eq_refl ltac:(discriminate)).
  repeat split.
Defined.




(** C8, as the code has it.  When the response to a dropped PDF is not
    [ok], the handler ends with the loading flag down, no result stored by
    it and no observer called, and with the error text set to: the [error]
    field of the body, when the body parses to a value with a non-empty
    string there; "Failed to convert PDF", when the body parses and its
    [error] field is absent or falsy; the message of the exception,
    when reading the body as JSON throws or the body is [null]. *)
Theorem onDrop_failure_response :
  forall (onContentChange : option (Value -> Completion unit))
    (net : Network) (f : File) (rest : list File) (w w1 : World)
    (resp : Response),
  type f = "application/pdf" ->
  net f (uploading w f) = (Normal resp, w1) ->
  ok resp = false ->
  (forall result w2 s,
     json resp w1 = (Normal result, w2) ->
     getProp result "error" = Normal (JStr s) -> s <> "" ->
     onDrop onContentChange net (f :: rest) w = (Normal tt, failed w2 s)) /\
  (forall result w2 e,
     json resp w1 = (Normal result, w2) ->
     getProp result "error" = Normal e -> truthy e = false ->
     onDrop onContentChange net (f :: rest) w
     = (Normal tt, failed w2 "Failed to convert PDF")) /\
  (forall err w2,
     json resp w1 = (Throw err, w2) ->
     onDrop onContentChange net (f :: rest) w
     = (Normal tt, failed w2 (error_text err))) /\
  (forall result w2 err,
     json resp w1 = (Normal result, w2) ->
     getProp result "error" = Throw err ->
     onDrop onContentChange net (f :: rest) w
     = (Normal tt, failed w2 (error_text err))).
Proof.
  intros oc net f rest w w1 resp Ht Hnet Hok.
  rewrite (onDrop_responded oc net f rest w w1 resp Ht Hnet).
  repeat split.
  - intros result w2 s Hjson He Hs.
    apply guarded_throw with (err := ErrorObject "Error" s).
    unfold bind at 1. rewrite Hjson, Hok. simpl.
    unfold bind at 1. unfold bind at 1. unfold lift at 1. rewrite He.
    unfold throw_new_Error, or_else, bind, lift; simpl.
    destruct (s =? "") eqn:E; [apply String.eqb_eq in E; contradiction|].
    reflexivity.
  - intros result w2 e Hjson He Hf.
    apply guarded_throw
      with (err := ErrorObject "Error" "Failed to convert PDF").
    unfold bind at 1. rewrite Hjson, Hok. simpl.
    unfold bind at 1. unfold bind at 1. unfold lift at 1. rewrite He.
    unfold throw_new_Error, or_else, bind, lift. rewrite Hf. reflexivity.
  - intros err w2 Hjson.
    apply guarded_throw. unfold bind at 1. rewrite Hjson. reflexivity.
  - intros result w2 err Hjson He.
    apply guarded_throw. unfold bind at 1. rewrite Hjson, Hok. simpl.
    unfold bind at 1. unfold bind at 1. unfold lift at 1. rewrite He.
    reflexivity.
Qed.

(** A 500 whose body is [{"error": "Conversion failed"}]. *)
Lemma onDrop_failure_response_witness :
  onDrop None
    (Sample.respond false
       (Normal (JObj [("error", JStr "Conversion failed")])))
    [Sample.pdfFile] {| state := initialState; trace := [] |}
  = (Normal tt,
     failed (uploading {| state := initialState; trace := [] |}
               Sample.pdfFile)
            "Conversion failed").
Proof.
  destruct (onDrop_failure_response None
              (Sample.respond false
                 (Normal (JObj [("error", JStr "Conversion failed")])))
              Sample.pdfFile [] {| state := initialState; trace := [] |}
              (uploading {| state := initialState; trace := [] |}
                 Sample.pdfFile)
              {| ok := false;
                 json := lift (Normal (JObj [("error",
                                              JStr "Conversion failed")])) |}
              eq_refl eq_refl eq_refl) as [Hserver _].
  apply (Hserver (JObj [("error", JStr "Conversion failed")])).
  - reflexivity.
  - reflexivity.
  - discriminate.
Defined.

(** C8 as stated fails: a 502 whose body is a page of markup, so that
    reading it as JSON throws, ends with the parser's message as the error
    text, which is neither a message of the server nor the generic one;
    and a body whose [error] field is an empty array ends with no error
    text at all. *)
Lemma onDrop_failure_body_shape :
  error (state (snd (onDrop None
    (Sample.respond false
       (Throw (ErrorObject "SyntaxError"
                 "Unexpected token '<', <html>... is not valid JSON")))
    [Sample.pdfFile] {| state := initialState; trace := [] |})))
  = "Unexpected token '<', <html>... is not valid JSON" /\
  "Unexpected token '<', <html>... is not valid JSON"
  <> "Failed to convert PDF" /\
  getError (state (snd (onDrop None
    (Sample.respond false (Normal (JObj [("error", JArr [])])))
    [Sample.pdfFile] {| state := initialState; trace := [] |})))
  = JNull.
Proof. repeat split. discriminate. Qed.

(** C10.  The handler always returns, and when it has returned the
    accessor [isConverting] reads [false]: for every list of dropped
    files, every behaviour of the network (a response, a rejection, an
    abort, with whatever else happened on the page meanwhile) and every
    observer. *)
Theorem onDrop_resets_loading :
  forall (onContentChange : option (Value -> Completion unit))
    (net : Network) (acceptedFiles : list File) (w : World),
  exists w',
    onDrop onContentChange net acceptedFiles w = (Normal tt, w') /\
    isConverting (state w') = false.
Proof.
  intros oc net files w. unfold onDrop.
  unfold bind at 1 2 3; simpl.
  apply guarded_returns.
Qed.

(** The paths of the handler on concrete drops. *)
Example onDrop_success :
  onDrop (Some (fun _ => Normal tt))
    (Sample.respond true (Normal Sample.otherDoc)) [Sample.pdfFile]
    (Sample.withResult Sample.helloDoc)
  = (Normal tt,
     {| state := {| data := Sample.otherDoc; error := "";
                    isLoading := false |};
        trace := [FetchCall "/api/py/convert" "POST" Sample.pdfFile;
                  ConsoleLog Sample.otherDoc;
                  ContentChangeCall Sample.otherDoc] |}).
Proof. reflexivity. Qed.

Example onDrop_transport_failure :
  onDrop None Sample.unreachable [Sample.pdfFile]
    {| state := initialState; trace := [] |}
  = (Normal tt,
     {| state := {| data := JNull; error := "Failed to fetch";
                    isLoading := false |};
        trace := [FetchCall "/api/py/convert" "POST" Sample.pdfFile] |}).
Proof. reflexivity. Qed.

Example onDrop_no_accepted_file :
  onDrop None Sample.unreachable [] {| state := initialState; trace := [] |}
  = (Normal tt,
     {| state := {| data := JNull;
                    error := "Cannot read properties of undefined (reading 'type')";
                    isLoading := false |};
        trace := [] |}).
Proof. reflexivity. Qed.

End UploadFacts.

(* ================================================================== *)
(** * Further properties of the editing surface *)
(* ================================================================== *)

Lemma option_string_eqb_neq (a b : option string) :
  a <> b -> option_string_eqb a b = false.
Proof.
  destruct a as [x|], b as [y|]; simpl; intros Hab; try reflexivity.
  - apply String.eqb_neq. congruence.
  - congruence.
Qed.

Lemma defaultContent_valid : isValidContent defaultContent = JBool true.
Proof. reflexivity. Qed.

Lemma setContentCalls_app {T : Tiptap} (l r : list Event) :
  setContentCalls (l ++ r) = (setContentCalls l ++ setContentCalls r)%list.
Proof. unfold setContentCalls. apply flat_map_app. Qed.

Section SurfaceFacts.
Context {T : Tiptap}.

(** The effect when reading the editor's document throws. *)
Lemma syncEffect_throw (content : Value) (w : World) (e : EditorState)
  (err : Thrown) :
  editor w = Some e ->
  isValidContent content = JBool true ->
  getJSON e = Throw err ->
  syncEffect content w =
    (Normal tt,
     {| editor := Some (replaceDocument defaultContent e);
        trace := trace w ++
                 [ConsoleError "Failed to update editor content:" err;
                  SetContentCall defaultContent false] |}).
Proof.
  intros He Hv Herr.
  unfold syncEffect, bind, get. rewrite He.
  rewrite (isValidContent_true_truthy _ Hv).
  unfold try_catch, bind, lift. rewrite Hv. simpl. rewrite Herr.
  unfold emit, setContent, modify; simpl. rewrite He, <- app_assoc.
  reflexivity.
Qed.

(** Every run of the effect, by what it adds to the trace. *)
Lemma syncEffect_run (content : Value) (w : World) :
  exists w' new,
    syncEffect content w = (Normal tt, w') /\
    trace w' = (trace w ++ new)%list /\
    Forall (fun c => isValidContent c = JBool true) (setContentCalls new) /\
    Forall (fun ev => match ev with
                      | SetContentCall _ emitUpdate => emitUpdate = false
                      | OnChangeCall _ => False
                      | _ => True
                      end) new.
Proof.
  destruct (editor w) as [e|] eqn:He.
  2:{ exists w, []. unfold syncEffect, bind, get. rewrite He.
      rewrite app_nil_r. repeat split; constructor. }
  destruct (truthy content) eqn:Ht.
  2:{ exists w, []. rewrite (syncEffect_falsy content w Ht).
      rewrite app_nil_r. repeat split; constructor. }
  destruct (truthy (isValidContent content)) eqn:Hv.
  - apply isValidContent_truthy in Hv.
    destruct (getJSON e) as [cur|err] eqn:Hcur.
    + rewrite (syncEffect_valid content w e cur He Hv Hcur).
      destruct (option_string_eqb (JSON_stringify content)
                                  (JSON_stringify cur)).
      * exists w, []. rewrite app_nil_r. repeat split; constructor.
      * eexists _, [SetContentCall content false].
        repeat split; simpl; repeat constructor; assumption.
    + rewrite (syncEffect_throw content w e err He Hv Hcur).
      eexists _, [_; _].
      repeat split; simpl; repeat constructor.
  - rewrite (syncEffect_invalid content w e He Ht Hv).
    eexists _, [_; _].
    repeat split; simpl; repeat constructor.
Qed.

End SurfaceFacts.

(** X1.  The editor is only ever given documents: the value it starts
    from passes [isValidContent], and so does the argument of every
    [setContent] call the effect makes, whatever the prop is; the effect
    always completes normally, passes [emitUpdate = false] on each call and
    never calls [onChange]. *)
Theorem editor_receives_only_documents :
  forall (T : Tiptap) (content : Value) (w : World),
  isValidContent (initialContent content) = JBool true /\
  exists w' new,
    syncEffect content w = (Normal tt, w') /\
    trace w' = (trace w ++ new)%list /\
    Forall (fun c => isValidContent c = JBool true) (setContentCalls new) /\
    Forall (fun ev => match ev with
                      | SetContentCall _ emitUpdate => emitUpdate = false
                      | OnChangeCall _ => False
                      | _ => True
                      end) new.
Proof.
  intros T content w. split.
  - unfold initialContent.
    destruct (truthy (isValidContent content)) eqn:Hv.
    + apply isValidContent_truthy; assumption.
    + reflexivity.
  - apply syncEffect_run.
Qed.

(** X2.  When the prop is a document and reading the editor's own
    document throws, the effect logs the exception and replaces the
    editor's document by the one built from [defaultContent]: the prop is
    not given to the editor on that run. *)
Theorem syncEffect_readback_failure :
  forall (T : Tiptap) (content : Value) (w : World) (e : EditorState)
    (err : Thrown),
  editor w = Some e ->
  isValidContent content = JBool true ->
  getJSON e = Throw err ->
  syncEffect content w =
    (Normal tt,
     {| editor := Some (replaceDocument defaultContent e);
        trace := trace w ++
                 [ConsoleError "Failed to update editor content:" err;
                  SetContentCall defaultContent false] |}) /\
  docOf (snd (syncEffect content w)) = Some (createDocument defaultContent).
Proof.
  intros T content w e err He Hv Herr.
  rewrite (syncEffect_throw content w e err He Hv Herr).
  split; reflexivity.
Qed.

(** An editor holding a document it cannot serialise, given a document. *)
Lemma syncEffect_readback_failure_witness :
  setContentCalls
    (trace (snd (syncEffect (T := Sample.treeEditor) Sample.helloDoc
                   (Sample.worldWith Sample.brokenDoc))))
  = [defaultContent].
Proof.
  destruct (syncEffect_readback_failure Sample.treeEditor Sample.helloDoc
              (Sample.worldWith Sample.brokenDoc)
              (Sample.editing Sample.brokenDoc)
              (ErrorObject "RangeError" "Invalid document")
              eq_refl eq_refl eq_refl) as [Hrun _].
  rewrite Hrun. reflexivity.
Defined.

(** X3.  Mounting.  When the prop is a document that the schema gives back
    unchanged, the first run of the effect on the freshly initialised
    editor makes no call.  When the prop is truthy and no document, the
    editor has started from [defaultContent] and the first run warns and
    sets [defaultContent] once more. *)
Theorem mount_then_sync :
  forall (T : Tiptap) (content : Value),
  (isValidContent content = JBool true ->
   toJSON (createDocument content) = Normal content ->
   syncEffect content {| editor := Some (initialize content); trace := [] |}
   = (Normal tt, {| editor := Some (initialize content); trace := [] |})) /\
  (truthy content = true ->
   truthy (isValidContent content) = false ->
   doc (initialize content) = createDocument defaultContent /\
   syncEffect content {| editor := Some (initialize content); trace := [] |}
   = (Normal tt,
      {| editor := Some (replaceDocument defaultContent (initialize content));
         trace := [ConsoleWarn "Invalid content provided to Editor";
                   SetContentCall defaultContent false] |})).
Proof.
  intros T content. split.
  - intros Hv Hround.
    apply (syncEffect_same_text content _ (initialize content) content);
      auto.
    unfold getJSON, initialize, initialContent; simpl.
    rewrite (proj2 (isValidContent_truthy content) Hv). exact Hround.
  - intros Ht Hv. split.
    + unfold initialize, initialContent. rewrite Hv. reflexivity.
    + apply (syncEffect_invalid content
               {| editor := Some (initialize content); trace := [] |}
               (initialize content)); auto.
Qed.

Lemma mount_then_sync_witness :
  syncEffect (T := Sample.treeEditor) Sample.helloDoc
    {| editor := Some (initialize Sample.helloDoc); trace := [] |}
  = (Normal tt,
     {| editor := Some (initialize Sample.helloDoc); trace := [] |}) /\
  setContentCalls
    (trace (snd (syncEffect (T := Sample.treeEditor) (JObj [])
                   {| editor := Some (initialize (JObj [])); trace := [] |})))
  = [defaultContent].
Proof.
  split.
  - apply (proj1 (mount_then_sync Sample.treeEditor Sample.helloDoc));
      reflexivity.
  - destruct (proj2 (mount_then_sync Sample.treeEditor (JObj []))
                eq_refl eq_refl) as [_ Hrun].
    rewrite Hrun. reflexivity.
Defined.

Section Unsettled.
Context {T : Tiptap}.

Lemma syncEffect_unsettled_step (content next : Value) (w : World) :
  isValidContent content = JBool true ->
  toJSON (createDocument content) = Normal next ->
  JSON_stringify content <> JSON_stringify next ->
  docOf w = Some (createDocument content) ->
  docOf (snd (syncEffect content w)) = Some (createDocument content) /\
  trace (snd (syncEffect content w))
  = (trace w ++ [SetContentCall content false])%list.
Proof.
  intros Hv Hnext Hneq Hdoc.
  unfold docOf in Hdoc. destruct (editor w) as [e|] eqn:He; [|discriminate].
  simpl in Hdoc. injection Hdoc as Hdoc.
  assert (Hcur : getJSON e = Normal next).
  { unfold getJSON. rewrite Hdoc. exact Hnext. }
  rewrite (syncEffect_valid content w e next He Hv Hcur).
  rewrite (option_string_eqb_neq _ _ Hneq). split; reflexivity.
Qed.

Lemma syncEffect_unsettled (content next : Value) (w : World) (n : nat) :
  isValidContent content = JBool true ->
  toJSON (createDocument content) = Normal next ->
  JSON_stringify content <> JSON_stringify next ->
  docOf w = Some (createDocument content) ->
  docOf (Nat.iter n (fun x => snd (syncEffect content x)) w)
  = Some (createDocument content) /\
  setContentCalls
    (trace (Nat.iter n (fun x => snd (syncEffect content x)) w))
  = (setContentCalls (trace w) ++ repeat content n)%list.
Proof.
  intros Hv Hnext Hneq Hdoc. induction n as [|n [IHd IHt]].
  - simpl. rewrite app_nil_r. split; [exact Hdoc|reflexivity].
  - change (Nat.iter (S n) (fun x => snd (syncEffect content x)) w)
      with (snd (syncEffect content
                   (Nat.iter n (fun x => snd (syncEffect content x)) w))).
    destruct (syncEffect_unsettled_step content next _ Hv Hnext Hneq IHd)
      as [Hd Ht].
    split; [exact Hd|].
    rewrite Ht, setContentCalls_app, IHt, <- app_assoc. simpl.
    f_equal. symmetry. apply repeat_cons.
Qed.

End Unsettled.

(** X4.  When the schema serialises the document built from the prop to a
    text other than the prop's own (it reorders properties, say, or fills
    in attributes), the guard never comes to rest: on an editor that holds
    that document, each run of the effect calls [setContent] with the prop
    again, so [n] runs make [n] calls, and the editor's document stays the
    same throughout. *)
Theorem syncEffect_never_settles :
  forall (T : Tiptap) (content next : Value) (w : World) (n : nat),
  isValidContent content = JBool true ->
  toJSON (createDocument content) = Normal next ->
  JSON_stringify content <> JSON_stringify next ->
  docOf w = Some (createDocument content) ->
  docOf (Nat.iter n (fun x => snd (syncEffect content x)) w)
  = Some (createDocument content) /\
  setContentCalls
    (trace (Nat.iter n (fun x => snd (syncEffect content x)) w))
  = (setContentCalls (trace w) ++ repeat content n)%list.
Proof. intros T. apply syncEffect_unsettled. Qed.

(** A document whose properties come in another order than the editor
    writes them, on an editor just initialised with it: three runs, three
    calls. *)
Lemma syncEffect_never_settles_witness :
  setContentCalls
    (trace (Nat.iter 3
              (fun x => snd (syncEffect (T := Sample2.orderingEditor)
                               Sample.helloDoc_contentFirst x))
              {| editor := Some (initialize Sample.helloDoc_contentFirst);
                 trace := [] |}))
  = [Sample.helloDoc_contentFirst; Sample.helloDoc_contentFirst;
     Sample.helloDoc_contentFirst].
Proof.
  apply (syncEffect_never_settles Sample2.orderingEditor
           Sample.helloDoc_contentFirst Sample.helloDoc
           {| editor := Some (initialize Sample.helloDoc_contentFirst);
              trace := [] |} 3).
  - reflexivity.
  - reflexivity.
  - discriminate.
  - reflexivity.
Defined.

(* ================================================================== *)
(** * The text of a JSON value determines the value *)
(* ================================================================== *)

Module JsonFacts.
Import Json.

Lemma append_assoc (a b c : string) : (a ++ b) ++ c = a ++ (b ++ c).
Proof. induction a as [|h a IH]; simpl; [reflexivity|]. rewrite IH. reflexivity. Qed.

Lemma append_nil_r (a : string) : a ++ "" = a.
Proof. induction a as [|h a IH]; simpl; [reflexivity|]. rewrite IH. reflexivity. Qed.

Lemma unquote_quote_char (c : ascii) (r : string) :
  unquote_char (quote_char c ++ r) = Some (c, r).
Proof.
  destruct c as [[|] [|] [|] [|] [|] [|] [|] [|]]; reflexivity.
Qed.

Lemma quote_char_head (c : ascii) :
  exists h t, quote_char c = String h t /\ h <> "034"%char.
Proof.
  destruct c as [[|] [|] [|] [|] [|] [|] [|] [|]];
    eexists _, _; (split; [reflexivity|discriminate]).
Qed.

Lemma quote_chars_prefix (s s' x y : string) :
  quote_chars s ++ dquote ++ x = quote_chars s' ++ dquote ++ y ->
  s = s' /\ x = y.
Proof.
  revert s'. induction s as [|c s IH]; intros [|c' s']; simpl.
  - intros H. injection H as H. auto.
  - intros H. destruct (quote_char_head c') as (h & t & Hq & Hh).
    rewrite Hq in H. simpl in H. injection H as H _. congruence.
  - intros H. destruct (quote_char_head c) as (h & t & Hq & Hh).
    rewrite Hq in H. simpl in H. injection H as H _. congruence.
  - intros H. rewrite !append_assoc in H.
    assert (Hu := f_equal unquote_char H).
    rewrite !unquote_quote_char in Hu. injection Hu as Hc Hr.
    subst c'. destruct (IH s' Hr) as [-> ->]. auto.
Qed.

Lemma quoteJSONString_prefix (s s' x y : string) :
  quoteJSONString s ++ x = quoteJSONString s' ++ y -> s = s' /\ x = y.
Proof.
  unfold quoteJSONString. rewrite !append_assoc.
  intros H. simpl in H. injection H as H.
  apply quote_chars_prefix in H. exact H.
Qed.

Lemma uint_text_prefix (d d' : Decimal.uint) (x y : string) :
  no_digit_head x -> no_digit_head y ->
  NilEmpty.string_of_uint d ++ x = NilEmpty.string_of_uint d' ++ y ->
  d = d' /\ x = y.
Proof.
  intros Hx Hy. revert d'.
  induction d as [|d IH|d IH|d IH|d IH|d IH|d IH|d IH|d IH|d IH|d IH];
    intros [|d'|d'|d'|d'|d'|d'|d'|d'|d'|d']; simpl; intros H;
    try discriminate;
    try (subst x; simpl in Hx; discriminate);
    try (subst y; simpl in Hy; discriminate);
    try (injection H as H; destruct (IH d' H) as [-> ->]; auto).
  auto.
Qed.

Lemma uint_text_head (d : Decimal.uint) :
  d <> Decimal.Nil ->
  exists h t, NilEmpty.string_of_uint d = String h t /\ is_digit h = true.
Proof.
  destruct d; intros Hd; try contradiction; simpl; eexists _, _;
    split; reflexivity.
Qed.

Lemma NilZero_nonnil (d : Decimal.uint) :
  d <> Decimal.Nil -> NilZero.string_of_uint d = NilEmpty.string_of_uint d.
Proof. destruct d; intros Hd; try contradiction; reflexivity. Qed.

(** The numeral of an integer: a sign and the digits of a decimal that is
    not empty. *)
Lemma string_of_Z_shape (n : Z) :
  exists (neg : bool) (d : Decimal.uint),
    d <> Decimal.Nil /\
    Z.to_int n = (if neg then Decimal.Neg d else Decimal.Pos d) /\
    string_of_Z n
    = (if neg then "-" else "") ++ NilEmpty.string_of_uint d.
Proof.
  unfold string_of_Z. destruct n as [|p|p]; simpl.
  - exists false, (Decimal.D0 Decimal.Nil). repeat split. discriminate.
  - exists false, (Pos.to_uint p).
    pose proof (DecimalPos.Unsigned.to_uint_nonnil p) as Hp.
    repeat split; [exact Hp|]. apply NilZero_nonnil; exact Hp.
  - exists true, (Pos.to_uint p).
    pose proof (DecimalPos.Unsigned.to_uint_nonnil p) as Hp.
    repeat split; [exact Hp|]. simpl. f_equal.
    apply NilZero_nonnil; exact Hp.
Qed.

Lemma string_of_Z_prefix (n m : Z) (x y : string) :
  no_digit_head x -> no_digit_head y ->
  string_of_Z n ++ x = string_of_Z m ++ y ->
  n = m /\ x = y.
Proof.
  intros Hx Hy.
  destruct (string_of_Z_shape n) as (sn & dn & Hdn & Hin & ->).
  destruct (string_of_Z_shape m) as (sm & dm & Hdm & Him & ->).
  destruct (uint_text_head dn Hdn) as (hn & tn & Hn & Hhn).
  destruct (uint_text_head dm Hdm) as (hm & tm & Hm & Hhm).
  destruct sn, sm; simpl; intros H.
  - injection H as H. destruct (uint_text_prefix dn dm x y Hx Hy H) as [-> ->].
    split; [|reflexivity]. apply DecimalZ.to_int_inj. congruence.
  - rewrite Hm in H. simpl in H. injection H as H _. subst hm. discriminate.
  - rewrite Hn in H. simpl in H. injection H as H _. subst hn. discriminate.
  - destruct (uint_text_prefix dn dm x y Hx Hy H) as [-> ->].
    split; [|reflexivity]. apply DecimalZ.to_int_inj. congruence.
Qed.

Lemma string_of_Z_head (n : Z) :
  exists h t, string_of_Z n = String h t /\
              (h = "-"%char \/ is_digit h = true).
Proof.
  destruct (string_of_Z_shape n) as (sn & dn & Hdn & _ & ->).
  destruct (uint_text_head dn Hdn) as (h & t & -> & Hh).
  destruct sn; simpl; eexists _, _; split; try reflexivity; auto.
Qed.

Lemma join_cons (sep x : string) (l : list string) :
  join sep (x :: l) = x ++ sepBefore sep l.
Proof.
  revert x. induction l as [|y l IH]; intros x.
  - simpl. rewrite append_nil_r. reflexivity.
  - change (join sep (x :: y :: l)) with (x ++ sep ++ join sep (y :: l)).
    rewrite IH. reflexivity.
Qed.

(** Lists of members between brackets: when each member can be read off
    the head of a text, so can the list up to its closing bracket. *)
Section Joined.
Variables (A : Type) (f : A -> string) (good : A -> Prop) (closer : ascii).
Hypothesis closer_no_digit : is_digit closer = false.
Hypothesis closer_no_comma : closer <> ","%char.
Hypothesis head_not_closer :
  forall a, good a -> exists h t, f a = String h t /\ h <> closer.

Let Readable (a : A) : Prop :=
  forall b x y,
    good a -> good b -> no_digit_head x -> no_digit_head y ->
    f a ++ x = f b ++ y -> a = b /\ x = y.

Lemma sepBefore_no_digit (l : list A) (x : string) :
  no_digit_head (sepBefore "," (map f l) ++ String closer x).
Proof. destruct l; simpl; [exact closer_no_digit|reflexivity]. Qed.

Lemma sepBefore_prefix (l : list A) :
  Forall Readable l ->
  forall l' x y,
    Forall good l -> Forall good l' ->
    sepBefore "," (map f l) ++ String closer x
    = sepBefore "," (map f l') ++ String closer y ->
    l = l' /\ x = y.
Proof.
  induction 1 as [|a l Ha _ IH]; intros [|b l'] x y Hl Hl'; simpl; intros H.
  - injection H as H. auto.
  - injection H as H _. contradiction.
  - injection H as H _. symmetry in H. contradiction.
  - injection H as H. rewrite !append_assoc in H.
    inversion Hl as [|? ? Hga Hgl]; subst.
    inversion Hl' as [|? ? Hgb Hgl']; subst.
    destruct (Ha b _ _ Hga Hgb (sepBefore_no_digit l x)
                (sepBefore_no_digit l' y) H) as [-> Hrest].
    destruct (IH l' x y Hgl Hgl' Hrest) as [-> ->]. auto.
Qed.

Lemma join_prefix (l l' : list A) (x y : string) :
  Forall Readable l ->
  Forall good l -> Forall good l' ->
  join "," (map f l) ++ String closer x
  = join "," (map f l') ++ String closer y ->
  l = l' /\ x = y.
Proof.
  intros HR Hl Hl' H.
  destruct l as [|a l], l' as [|b l'].
  - simpl in H. injection H as H. auto.
  - exfalso. inversion Hl' as [|? ? Hgb _]; subst.
    destruct (head_not_closer b Hgb) as (h & t & Hb & Hh).
    simpl map in H. rewrite join_cons, Hb in H. simpl in H.
    injection H as H _. congruence.
  - exfalso. inversion Hl as [|? ? Hga _]; subst.
    destruct (head_not_closer a Hga) as (h & t & Ha & Hh).
    simpl map in H. rewrite join_cons, Ha in H. simpl in H.
    injection H as H _. congruence.
  - simpl map in H. rewrite !join_cons, !append_assoc in H.
    inversion HR as [|? ? Ha HRl]; subst.
    inversion Hl as [|? ? Hga Hgl]; subst.
    inversion Hl' as [|? ? Hgb Hgl']; subst.
    destruct (Ha b _ _ Hga Hgb (sepBefore_no_digit l x)
                (sepBefore_no_digit l' y) H) as [-> Hrest].
    destruct (sepBefore_prefix l HRl l' x y Hgl Hgl' Hrest) as [-> ->].
    auto.
Qed.

End Joined.

Lemma stringify_text (v : Value) :
  v <> JUndefined -> JSON_stringify v = Some (text v).
Proof.
  destruct v as [| |[|]| | | |]; intros Hv; try reflexivity. contradiction.
Qed.

Lemma isJSON_defined (v : Value) : isJSON v = true -> v <> JUndefined.
Proof. intros Hv ->. discriminate. Qed.

Lemma text_JArr (l : list Value) :
  text (JArr l) = "[" ++ join "," (map text l) ++ "]".
Proof. reflexivity. Qed.

Lemma text_JObj (ps : list (string * Value)) :
  forallb (fun kv => isJSON (snd kv)) ps = true ->
  text (JObj ps) = "{" ++ join "," (map entry ps) ++ "}".
Proof.
  intros Hps. unfold text. simpl. do 3 f_equal.
  induction ps as [|[k v] ps IH]; [reflexivity|].
  simpl in Hps. apply andb_true_iff in Hps. destruct Hps as [Hv Hps].
  simpl. rewrite (stringify_text v (isJSON_defined v Hv)).
  simpl. rewrite (IH Hps). reflexivity.
Qed.

(** The first character of the text of a JSON value is none of the
    characters that end or separate the members of a list. *)
Lemma text_head (v : Value) :
  isJSON v = true ->
  exists h t, text v = String h t /\
    h <> "]"%char /\ h <> "}"%char /\ h <> ","%char.
Proof.
  destruct v as [| |[|]|n|s|l|ps]; intros Hv; try discriminate;
    try (eexists _, _; split; [reflexivity|]; repeat split; discriminate).
  destruct (string_of_Z_head n) as (h & t & Hn & Hh).
  exists h, t. split; [exact Hn|].
  destruct Hh as [->|Hh]; repeat split; try discriminate;
    intros ->; discriminate.
Qed.

Lemma forallb_Forall {A : Type} (p : A -> bool) (l : list A) :
  forallb p l = true -> Forall (fun a => p a = true) l.
Proof. intros H. apply Forall_forall. apply forallb_forall. exact H. Qed.

(** Reading a JSON value off the head of a text: two JSON values whose
    texts, each followed by something that does not begin with a digit,
    give the same text are the same value, followed by the same thing. *)
Lemma text_prefix :
  forall a b x y,
    isJSON a = true -> isJSON b = true ->
    no_digit_head x -> no_digit_head y ->
    text a ++ x = text b ++ y -> a = b /\ x = y.
Proof.
  fix IH 1.
  intros a b x y Ha Hb Hx Hy H.
  destruct a as [| |[|]|n|s|l|ps]; try discriminate Ha;
    destruct b as [| |[|]|m|s'|l'|ps']; try discriminate Hb;
    try (injection H as H; split; [reflexivity|exact H]);
    try discriminate H;
    try (exfalso; clear IH;
         destruct (string_of_Z_head n) as (h & t & Hn & [->|Hh]);
         change (text (JNum n)) with (string_of_Z n) in H;
         rewrite Hn in H; simpl in H; injection H as H' _;
         try discriminate H'; subst h; discriminate Hh);
    try (exfalso; clear IH;
         destruct (string_of_Z_head m) as (h & t & Hm & [->|Hh]);
         change (text (JNum m)) with (string_of_Z m) in H;
         rewrite Hm in H; simpl in H; injection H as H' _;
         try discriminate H'; subst h; discriminate Hh).
  - (* numbers *)
    clear IH.
    destruct (string_of_Z_prefix n m x y Hx Hy H) as [-> ->].
    split; reflexivity.
  - (* strings *)
    clear IH.
    destruct (quoteJSONString_prefix s s' x y H) as [-> ->].
    split; reflexivity.
  - (* arrays *)
    rewrite !text_JArr in H. simpl in H. injection H as H.
    rewrite !append_assoc in H. simpl in H.
    simpl in Ha, Hb.
    assert (HR : Forall (fun v => forall b x y,
                  isJSON v = true -> isJSON b = true ->
                  no_digit_head x -> no_digit_head y ->
                  text v ++ x = text b ++ y -> v = b /\ x = y) l).
    { clear - IH. induction l as [|v l IHl]; constructor; [|exact IHl].
      intros b x y Hv Hb Hx Hy H. apply (IH v b x y); assumption. }
    clear IH.
    destruct (join_prefix Value text (fun v => isJSON v = true) "]"%char
                eq_refl ltac:(discriminate)
                ltac:(intros v Hv; destruct (text_head v Hv)
                        as (h & t & Ht & Hh & _); eauto)
                l l' x y HR (forallb_Forall _ _ Ha) (forallb_Forall _ _ Hb) H)
      as [-> ->].
    split; reflexivity.
  - (* objects *)
    simpl in Ha, Hb.
    rewrite (text_JObj ps Ha), (text_JObj ps' Hb) in H.
    simpl in H. injection H as H.
    rewrite !append_assoc in H. simpl in H.
    assert (HR : Forall (fun kv => forall kv' x y,
                  isJSON (snd kv) = true -> isJSON (snd kv') = true ->
                  no_digit_head x -> no_digit_head y ->
                  entry kv ++ x = entry kv' ++ y -> kv = kv' /\ x = y) ps).
    { clear - IH. induction ps as [|[k v] ps IHps]; constructor;
        [|exact IHps].
      intros [k' v'] x y Hv Hv' Hx Hy H. unfold entry in H.
      cbn [fst snd] in *. rewrite !append_assoc in H.
      destruct (quoteJSONString_prefix k k' _ _ H) as [-> H'].
      cbn [append] in H'. injection H' as H'.
      destruct (IH v v' x y Hv Hv' Hx Hy H') as [-> ->].
      split; reflexivity. }
    clear IH.
    destruct (join_prefix (string * Value) entry
                (fun kv => isJSON (snd kv) = true) "}"%char
                eq_refl ltac:(discriminate)
                ltac:(intros kv _; eexists _, _; split;
                        [reflexivity|discriminate])
                ps ps' x y HR (forallb_Forall _ _ Ha) (forallb_Forall _ _ Hb)
                H) as [-> ->].
    split; reflexivity.
Qed.

(** Two JSON values with the same [JSON.stringify] text are the same
    value. *)
Lemma JSON_stringify_injective (a b : Value) :
  isJSON a = true -> isJSON b = true ->
  JSON_stringify a = JSON_stringify b -> a = b.
Proof.
  intros Ha Hb H.
  rewrite (stringify_text a (isJSON_defined a Ha)) in H.
  rewrite (stringify_text b (isJSON_defined b Hb)) in H.
  injection H as H.
  apply (text_prefix a b "" ""); simpl; auto.
  rewrite !append_nil_r. exact H.
Qed.

End JsonFacts.



(* ================================================================== *)
(** * Properties of links and of attributes read back from markup *)
(* ================================================================== *)

Module SchemaFacts.
Import RegExp Schema.

Lemma matchAt_Chr (c : ascii) (s : string) (k : string -> bool) :
  matchAt (Chr c) s k = true <-> exists rest, s = String c rest /\ k rest = true.
Proof.
  simpl. destruct s as [|c' rest].
  - split; [discriminate|]. intros (r & Hr & _). discriminate.
  - destruct (Ascii.eqb_spec c c') as [->|Hne].
    + split.
      * intros Hk. exists rest. auto.
      * intros (r & Hr & Hk). injection Hr as <-. exact Hk.
    + split; [discriminate|]. intros (r & Hr & _). injection Hr as Hc _.
      congruence.
Qed.

Lemma matchAt_Seq_Chr (c : ascii) (r : Pattern) (s : string)
  (k : string -> bool) :
  matchAt (Seq (Chr c) r) s k = true <->
  exists rest, s = String c rest /\ matchAt r rest k = true.
Proof.
  change (matchAt (Seq (Chr c) r) s k)
    with (matchAt (Chr c) s (fun s' => matchAt r s' k)).
  apply matchAt_Chr.
Qed.

Lemma matchAt_Seq_Opt (q r : Pattern) (s : string) (k : string -> bool) :
  matchAt (Seq (Opt q) r) s k
  = matchAt (Seq q r) s k || matchAt r s k.
Proof. reflexivity. Qed.

(** X5.  The link validator accepts exactly the addresses that begin with
    [http://] or [https://], in lower case: anything else, a
    [javascript:] address or an address with no scheme included, is
    refused. *)
Theorem validate_http_or_https :
  forall href : string,
  validate href = true <->
  exists rest, href = "http://" ++ rest \/ href = "https://" ++ rest.
Proof.
  intros href. unfold validate, test_anchored, linkPattern.
  split.
  - intros H0.
    apply matchAt_Seq_Chr in H0. destruct H0 as (r1 & -> & H1).
    apply matchAt_Seq_Chr in H1. destruct H1 as (r2 & -> & H2).
    apply matchAt_Seq_Chr in H2. destruct H2 as (r3 & -> & H3).
    apply matchAt_Seq_Chr in H3. destruct H3 as (r4 & -> & H4).
    rewrite matchAt_Seq_Opt in H4.
    apply orb_true_iff in H4. destruct H4 as [H4|H4].
    + apply matchAt_Seq_Chr in H4. destruct H4 as (r5 & -> & H5).
      apply matchAt_Seq_Chr in H5. destruct H5 as (r6 & -> & H6).
      apply matchAt_Seq_Chr in H6. destruct H6 as (r7 & -> & H7).
      apply matchAt_Chr in H7. destruct H7 as (r8 & -> & _).
      exists r8. right. reflexivity.
    + apply matchAt_Seq_Chr in H4. destruct H4 as (r5 & -> & H5).
      apply matchAt_Seq_Chr in H5. destruct H5 as (r6 & -> & H6).
      apply matchAt_Chr in H6. destruct H6 as (r7 & -> & _).
      exists r7. left. reflexivity.
  - intros (rest & [-> | ->]); reflexivity.
Qed.

(** What the validator says of the addresses of everyday use. *)
Example validate_samples :
  validate "https://example.com" = true /\
  validate "http://example.com/a?b=c" = true /\
  validate "javascript:alert(1)" = false /\
  validate "HTTPS://example.com" = false /\
  validate "//example.com" = false /\
  validate " https://example.com" = false /\
  validate "" = false.
Proof. repeat split. Qed.

Lemma attribute_app_in (name : string) (a b : HTMLAttrs) (v : string) :
  attribute name a = Some v -> attribute name (a ++ b)%list = Some v.
Proof.
  induction a as [|[k x] a IH]; simpl; [discriminate|].
  destruct (k =? name); auto.
Qed.

(** X7.  A math node survives the trip through markup.  Whenever
    [Math.renderHTML] returns a fragment for a formula string, the
    attributes handed to it carrying the rendered [data-formula], and
    merging keeps an attribute of the first object that the second does
    not set and takes the second's otherwise ([class] and [style] apart),
    the element rendered is one the math parse rule accepts, and the
    formula parsed from it is the one that was rendered. *)
Theorem Math_round_trip :
  forall (K : Katex) (D : Dom) (f : string) (HTMLAttributes : HTMLAttrs)
    (frag : MathFragment),
  (forall a b name v,
     name <> "class" -> name <> "style" ->
     attribute name b = Some v ->
     attribute name (mergeAttributes a b) = Some v) ->
  (forall a b name,
     name <> "class" -> name <> "style" ->
     attribute name b = None ->
     attribute name (mergeAttributes a b) = attribute name a) ->
  attribute "data-formula" HTMLAttributes
  = attribute "data-formula" (Math_formula_renderHTML {| formula := f |}) ->
  Math_renderHTML (JStr f) HTMLAttributes = Normal frag ->
  Math_parseHTML (elementOf frag) = true /\
  Math_formula_parseHTML (elementOf frag) = Some f.
Proof.
  intros K D f attrs frag Hlater Hkeep Hf Hfrag.
  assert (Hshape : exists html, frag = fragmentOf attrs html).
  { rewrite (Math_renderHTML_typeset K D f attrs) in Hfrag.
    destruct (typeset f mathOptions) as [html|msg|e];
      [| |discriminate]; injection Hfrag as <-; eexists; reflexivity. }
  destruct Hshape as (html & ->).
  unfold Math_parseHTML, Math_formula_parseHTML, getAttribute, elementOf,
    fragmentOf.
  simpl. split.
  - rewrite (Hlater attrs _ "data-type" "math"); try reflexivity;
      discriminate.
  - rewrite Hkeep; try reflexivity; try discriminate. exact Hf.
Qed.

Lemma attribute_app_notin (name : string) (a b : HTMLAttrs) :
  attribute name a = None -> attribute name (a ++ b)%list = attribute name b.
Proof.
  induction a as [|[k x] a IH]; simpl; [reflexivity|].
  destruct (k =? name); [discriminate|exact IH].
Qed.

Lemma override_later (a b : HTMLAttrs) (name v : string) :
  attribute name b = Some v ->
  attribute name (Sample2.override a b) = Some v.
Proof. apply attribute_app_in. Qed.

Lemma override_keep (a b : HTMLAttrs) (name : string) :
  attribute name b = None ->
  attribute name (Sample2.override a b) = attribute name a.
Proof.
  intros Hb. unfold Sample2.override.
  rewrite (attribute_app_notin name b _ Hb).
  induction a as [|[k x] a IH]; simpl; [reflexivity|].
  destruct (k =? name) eqn:E.
  - apply String.eqb_eq in E; subst k. rewrite Hb. simpl.
    rewrite String.eqb_refl. reflexivity.
  - destruct (attribute k b); simpl; [exact IH|]. rewrite E. exact IH.
Qed.

(** The formula [x^2] with a class among the attributes handed to the
    renderer. *)
Lemma Math_round_trip_witness :
  Math_parseHTML
    (elementOf
       (fragmentOf (D := Sample2.overridingDom)
          [("class", "math-block"); ("data-formula", "x^2")]
          "<span class='katex'>x^2</span>")) = true /\
  Math_formula_parseHTML
    (elementOf
       (fragmentOf (D := Sample2.overridingDom)
          [("class", "math-block"); ("data-formula", "x^2")]
          "<span class='katex'>x^2</span>")) = Some "x^2".
Proof.
  apply (Math_round_trip Sample.braceKatex Sample2.overridingDom "x^2"
           [("class", "math-block"); ("data-formula", "x^2")]).
  - intros a b name v _ _. apply override_later.
  - intros a b name _ _. apply override_keep.
  - reflexivity.
  - reflexivity.
Defined.

End SchemaFacts.

(* ================================================================== *)
(** * Further properties of the upload workflow *)
(* ================================================================== *)

Module UploadMore.
Import SubmitPdf.

(** The handler once the body of an [ok] response has been read. *)
Lemma onDrop_parsed (onContentChange : option (Value -> Completion unit))
  (net : Network) (f : File) (rest : list File) (w w1 w2 : World)
  (resp : Response) (result : Value) :
  type f = "application/pdf" ->
  net f (uploading w f) = (Normal resp, w1) ->
  ok resp = true ->
  json resp w1 = (Normal result, w2) ->
  onDrop onContentChange net (f :: rest) w
  = try_finally
      (try_catch
         (setData result ;;
          emit (ConsoleLog result) ;;
          call_onContentChange onContentChange result)%eff
         (fun err => setError (error_text err)))
      (setIsLoading false) w2.
Proof.
  intros Ht Hnet Hok Hjson.
  rewrite (UploadFacts.onDrop_responded onContentChange net f rest w w1 resp
             Ht Hnet).
  unfold try_finally, try_catch.
  unfold bind at 1. rewrite Hjson, Hok. reflexivity.
Qed.

(** The handler on an [ok] response whose body parses, with an observer
    that returns. *)
Lemma onDrop_ok_run :
  forall (onContentChange : option (Value -> Completion unit))
    (net : Network) (f : File) (rest : list File) (w w1 w2 : World)
    (resp : Response) (result : Value),
  type f = "application/pdf" ->
  net f (uploading w f) = (Normal resp, w1) ->
  ok resp = true ->
  json resp w1 = (Normal result, w2) ->
  match onContentChange with
  | Some observer => observer result = Normal tt
  | None => True
  end ->
  onDrop onContentChange net (f :: rest) w
  = (Normal tt,
     {| state := {| data := result; error := error (state w2);
                    isLoading := false |};
        trace := trace w2 ++
                 ConsoleLog result ::
                 match onContentChange with
                 | Some _ => [ContentChangeCall result]
                 | None => []
                 end |}).
Proof.
  intros oc net f rest w w1 w2 resp result Ht Hnet Hok Hjson Hobs.
  rewrite (onDrop_parsed oc net f rest w w1 w2 resp result Ht Hnet Hok Hjson).
  unfold try_finally, try_catch, bind, setData, emit, modify; simpl.
  destruct oc as [observer|]; simpl.
  - unfold bind, emit, modify, lift; simpl. rewrite Hobs. simpl.
    rewrite <- app_assoc. reflexivity.
  - reflexivity.
Qed.


(** X8.  A dropped PDF answered with an [ok] response whose body parses:
    the handler stores the parsed body as the result, logs it, calls the
    observer (if there is one) once with it, and returns with the loading
    flag down; the error text is not touched after the reset at the start
    of the handler. *)
Theorem onDrop_success_path :
  forall (onContentChange : option (Value -> Completion unit))
    (net : Network) (f : File) (rest : list File) (w w1 w2 : World)
    (resp : Response) (result : Value),
  type f = "application/pdf" ->
  net f (uploading w f) = (Normal resp, w1) ->
  ok resp = true ->
  json resp w1 = (Normal result, w2) ->
  match onContentChange with
  | Some observer => observer result = Normal tt
  | None => True
  end ->
  onDrop onContentChange net (f :: rest) w
  = (Normal tt,
     {| state := {| data := result; error := error (state w2);
                    isLoading := false |};
        trace := trace w2 ++
                 ConsoleLog result ::
                 match onContentChange with
                 | Some _ => [ContentChangeCall result]
                 | None => []
                 end |}).
Proof. exact onDrop_ok_run. Qed.

Lemma onDrop_success_path_witness :
  onDrop (Some Page.setContent)
    (Sample.respond true (Normal Sample.otherDoc)) [Sample.pdfFile]
    (Sample.withResult Sample.helloDoc)
  = (Normal tt,
     {| state := {| data := Sample.otherDoc; error := "";
                    isLoading := false |};
        trace := [FetchCall "/api/py/convert" "POST" Sample.pdfFile;
                  ConsoleLog Sample.otherDoc;
                  ContentChangeCall Sample.otherDoc] |}).
Proof.
  apply (onDrop_success_path (Some Page.setContent)
           (Sample.respond true (Normal Sample.otherDoc)) Sample.pdfFile []
           (Sample.withResult Sample.helloDoc)
           (uploading (Sample.withResult Sample.helloDoc) Sample.pdfFile)
           (uploading (Sample.withResult Sample.helloDoc) Sample.pdfFile)
           {| ok := true; json := lift (Normal Sample.otherDoc) |}
           Sample.otherDoc);
    reflexivity.
Defined.

(** The handler on an [ok] response whose body parses, with an observer
    that throws. *)
Lemma onDrop_observer_run :
  forall (observer : Value -> Completion unit)
    (net : Network) (f : File) (rest : list File) (w w1 w2 : World)
    (resp : Response) (result : Value) (err : Thrown),
  type f = "application/pdf" ->
  net f (uploading w f) = (Normal resp, w1) ->
  ok resp = true ->
  json resp w1 = (Normal result, w2) ->
  observer result = Throw err ->
  onDrop (Some observer) net (f :: rest) w
  = (Normal tt,
     {| state := {| data := result; error := error_text err;
                    isLoading := false |};
        trace := trace w2 ++
                 [ConsoleLog result; ContentChangeCall result] |}).
Proof.
  intros obs net f rest w w1 w2 resp result err Ht Hnet Hok Hjson Hobs.
  rewrite (onDrop_parsed (Some obs) net f rest w w1 w2 resp result
             Ht Hnet Hok Hjson).
  unfold try_finally, try_catch, bind, setData, emit, modify; simpl.
  unfold bind, emit, modify, lift; simpl. rewrite Hobs. simpl.
  rewrite <- app_assoc. reflexivity.
Qed.


(** X9.  An observer that throws is reported as an upload error: the
    parsed body is already stored as the result when the observer is
    called, so the handler ends with both the result and the observer's
    message as error text. *)
Theorem onDrop_observer_throws :
  forall (observer : Value -> Completion unit)
    (net : Network) (f : File) (rest : list File) (w w1 w2 : World)
    (resp : Response) (result : Value) (err : Thrown),
  type f = "application/pdf" ->
  net f (uploading w f) = (Normal resp, w1) ->
  ok resp = true ->
  json resp w1 = (Normal result, w2) ->
  observer result = Throw err ->
  onDrop (Some observer) net (f :: rest) w
  = (Normal tt,
     {| state := {| data := result; error := error_text err;
                    isLoading := false |};
        trace := trace w2 ++
                 [ConsoleLog result; ContentChangeCall result] |}).
Proof. exact onDrop_observer_run. Qed.

Lemma onDrop_observer_throws_witness :
  state (snd (onDrop
    (Some (fun _ => Throw (ErrorObject "Error" "observer failed")))
    (Sample.respond true (Normal Sample.otherDoc)) [Sample.pdfFile]
    {| state := initialState; trace := [] |}))
  = {| data := Sample.otherDoc; error := "observer failed";
       isLoading := false |}.
Proof.
  rewrite (onDrop_observer_throws
             (fun _ => Throw (ErrorObject "Error" "observer failed"))
             (Sample.respond true (Normal Sample.otherDoc)) Sample.pdfFile []
             {| state := initialState; trace := [] |}
             (uploading {| state := initialState; trace := [] |}
                Sample.pdfFile)
             (uploading {| state := initialState; trace := [] |}
                Sample.pdfFile)
             {| ok := true; json := lift (Normal Sample.otherDoc) |}
             Sample.otherDoc (ErrorObject "Error" "observer failed")
             eq_refl eq_refl eq_refl eq_refl eq_refl).
  reflexivity.
Defined.

(** The handler when the request is rejected. *)
Lemma onDrop_fetch_throws
  (onContentChange : option (Value -> Completion unit))
  (net : Network) (f : File) (rest : list File) (w w1 : World)
  (err : Thrown) :
  type f = "application/pdf" ->
  net f (uploading w f) = (Throw err, w1) ->
  onDrop onContentChange net (f :: rest) w
  = (Normal tt, failed w1 (error_text err)).
Proof.
  intros Ht Hnet.
  unfold onDrop; simpl. unfold bind at 1 2 3; simpl.
  apply UploadFacts.guarded_throw.
  unfold bind at 1. rewrite (UploadFacts.pdf_accepted _ Ht).
  unfold ret at 1. unfold bind at 1. unfold fetch_convert, bind at 1.
  simpl.
  change {| state := {| data := JNull; error := ""; isLoading := true |};
            trace := trace w ++ [FetchCall "/api/py/convert" "POST" f] |}
    with (uploading w f).
  rewrite Hnet. reflexivity.
Qed.

(** X10.  When the request itself fails (the network is down, or the
    300000 ms signal aborts it), the handler ends with the loading flag
    down and the error text set to the message of what was thrown, or to
    "An error occurred" when that is no [Error]; nothing is stored and
    the body of no response is read. *)
Theorem onDrop_transport_failure_path :
  forall (onContentChange : option (Value -> Completion unit))
    (net : Network) (f : File) (rest : list File) (w w1 : World)
    (err : Thrown),
  type f = "application/pdf" ->
  net f (uploading w f) = (Throw err, w1) ->
  onDrop onContentChange net (f :: rest) w
  = (Normal tt, failed w1 (error_text err)) /\
  (forall name message, err = ErrorObject name message ->
     error_text err = message) /\
  (forall v, err = ThrownValue v -> error_text err = "An error occurred").
Proof.
  intros oc net f rest w w1 err Ht Hnet. split.
  - apply onDrop_fetch_throws; assumption.
  - split; intros; subst; reflexivity.
Qed.

Lemma onDrop_transport_failure_path_witness :
  onDrop None
    (fun _ => throw (ErrorObject "TimeoutError"
                       "The operation was aborted due to timeout"))
    [Sample.pdfFile] {| state := initialState; trace := [] |}
  = (Normal tt,
     failed (uploading {| state := initialState; trace := [] |}
               Sample.pdfFile)
            "The operation was aborted due to timeout").
Proof.
  apply (onDrop_transport_failure_path None
           (fun _ => throw (ErrorObject "TimeoutError"
                              "The operation was aborted due to timeout"))
           Sample.pdfFile [] {| state := initialState; trace := [] |}
           (uploading {| state := initialState; trace := [] |}
              Sample.pdfFile)
           (ErrorObject "TimeoutError"
              "The operation was aborted due to timeout"));
    reflexivity.
Defined.

(** X11.  The handler looks at the first accepted file only; when no file
    was accepted it reads [type] of [undefined], and ends with that
    [TypeError]'s message as the error text, the stored result cleared and
    no request made. *)
Theorem onDrop_first_file_only :
  forall (onContentChange : option (Value -> Completion unit))
    (net : Network) (w : World),
  (forall f rest,
     onDrop onContentChange net (f :: rest) w
     = onDrop onContentChange net [f] w) /\
  onDrop onContentChange net [] w
  = (Normal tt,
     {| state := {| data := JNull;
                    error := "Cannot read properties of undefined (reading 'type')";
                    isLoading := false |};
        trace := trace w |}).
Proof. intros oc net w. split; reflexivity. Qed.

(** X12.  Two overlapping drops.  When a second drop is handled to its
    end while the first handler still waits for its response, and that
    response then arrives [ok], the first handler stores its own parsed
    body over whatever the second drop left as the result and notifies the
    observer with it, while the error text the second drop left stays: the
    response that arrives last wins, not the file dropped last. *)
Theorem overlapping_drops_last_response_wins :
  forall (onContentChange : option (Value -> Completion unit))
    (net2 : Network) (files2 : list File) (f1 : File) (rest : list File)
    (w w2 w3 : World) (resp1 : Response) (r1 : Value),
  type f1 = "application/pdf" ->
  onDrop onContentChange net2 files2 (uploading w f1) = (Normal tt, w2) ->
  ok resp1 = true ->
  json resp1 w2 = (Normal r1, w3) ->
  match onContentChange with
  | Some observer => observer r1 = Normal tt
  | None => True
  end ->
  onDrop onContentChange
    (fun _ => (onDrop onContentChange net2 files2 ;; ret resp1)%eff)
    (f1 :: rest) w
  = (Normal tt,
     {| state := {| data := r1; error := error (state w3);
                    isLoading := false |};
        trace := trace w3 ++
                 ConsoleLog r1 ::
                 match onContentChange with
                 | Some _ => [ContentChangeCall r1]
                 | None => []
                 end |}).
Proof.
  intros oc net2 files2 f1 rest w w2 w3 resp1 r1 Ht Hsecond Hok Hjson Hobs.
  apply (onDrop_ok_run oc _ f1 rest w w2 w3 resp1 r1); auto.
  unfold bind. rewrite Hsecond. reflexivity.
Qed.

(** A PDF is dropped; while its conversion runs a text file is dropped and
    rejected; then the conversion of the first answers. *)
Lemma overlapping_drops_last_response_wins_witness :
  state (snd (onDrop (Some Page.setContent)
    (fun _ =>
       (onDrop (Some Page.setContent) Sample.unreachable [Sample.textFile] ;;
        ret {| ok := true; json := lift (Normal Sample.otherDoc) |})%eff)
    [Sample.pdfFile] {| state := initialState; trace := [] |}))
  = {| data := Sample.otherDoc; error := "Please upload a PDF file";
       isLoading := false |}.
Proof.
  rewrite (overlapping_drops_last_response_wins (Some Page.setContent)
             Sample.unreachable [Sample.textFile] Sample.pdfFile []
             {| state := initialState; trace := [] |}
             {| state := {| data := JNull;
                            error := "Please upload a PDF file";
                            isLoading := false |};
                trace := [FetchCall "/api/py/convert" "POST"
                            Sample.pdfFile] |}
             {| state := {| data := JNull;
                            error := "Please upload a PDF file";
                            isLoading := false |};
                trace := [FetchCall "/api/py/convert" "POST"
                            Sample.pdfFile] |}
             {| ok := true; json := lift (Normal Sample.otherDoc) |}
             Sample.otherDoc eq_refl eq_refl eq_refl eq_refl eq_refl).
  reflexivity.
Defined.

(** The part of the handler after the response, when the response is not
    [ok]: it always throws. *)
Lemma not_ok_throws (onContentChange : option (Value -> Completion unit))
  (resp : Response) (w1 : World) :
  ok resp = false ->
  exists err,
    (result <- json resp ;;
     (if negb (ok resp)
      then e <- lift (getProp result "error") ;;
           throw_new_Error (or_else e (JStr "Failed to convert PDF"))
      else ret tt) ;;
     setData result ;;
     emit (ConsoleLog result) ;;
     call_onContentChange onContentChange result)%eff w1
    = (Throw err, snd (json resp w1)).
Proof.
  intros Hok. unfold bind at 1.
  destruct (json resp w1) as [[result|err] w2]; [|eexists; reflexivity].
  rewrite Hok. simpl.
  unfold bind at 1. unfold bind at 1. unfold lift at 1.
  destruct (getProp result "error") as [e|err]; [|eexists; reflexivity].
  unfold throw_new_Error, bind, lift.
  destruct (ToString (or_else e (JStr "Failed to convert PDF")));
    eexists; reflexivity.
Qed.

(** X13.  What one drop sends out, when nothing else happens on the page
    while it waits.  The handler adds to the trace either nothing (no
    accepted file, or a first file that is no PDF), or one request and
    nothing more (the request or the reading of the body failed, or the
    response was not [ok]), or one request, one console log and at most
    one observer call, both carrying the parsed body of an [ok] response,
    which is then the stored result.  So there is never a second request
    and never a notification without a successful conversion. *)
Theorem onDrop_calls_out_once :
  forall (onContentChange : option (Value -> Completion unit))
    (net : Network) (acceptedFiles : list File) (w : World),
  Page.quiet net ->
  let w' := snd (onDrop onContentChange net acceptedFiles w) in
  (trace w' = trace w /\
   ~ (exists f rest, acceptedFiles = f :: rest /\ type f = "application/pdf"))
  \/
  (exists f rest,
     acceptedFiles = f :: rest /\ type f = "application/pdf" /\
     (trace w' = (trace w ++ [FetchCall "/api/py/convert" "POST" f])%list \/
      exists resp result,
        fst (net f (uploading w f)) = Normal resp /\
        ok resp = true /\
        fst (json resp (uploading w f)) = Normal result /\
        data (state w') = result /\
        trace w' = (trace w ++
                    FetchCall "/api/py/convert" "POST" f ::
                    ConsoleLog result ::
                    match onContentChange with
                    | Some _ => [ContentChangeCall result]
                    | None => []
                    end)%list)).
Proof.
  intros oc net files w Hquiet w'. subst w'.
  destruct files as [|f rest].
  - left. split; [reflexivity|]. intros (f & rest & Hf & _). discriminate.
  - destruct (String.eqb_spec (type f) "application/pdf") as [Ht|Ht].
    2:{ left. rewrite (UploadFacts.onDrop_rejected oc net f rest w Ht).
        split; [reflexivity|].
        intros (f' & rest' & Hf & Ht'). injection Hf as <- _.
        contradiction. }
    right. exists f, rest. split; [reflexivity|]. split; [exact Ht|].
    destruct (Hquiet f (uploading w f)) as [Hsame Hbody].
    destruct (net f (uploading w f)) as [[resp|err] w1] eqn:Hnet;
      simpl in Hsame; subst w1.
    2:{ left. rewrite (onDrop_fetch_throws oc net f rest w _ err Ht Hnet).
        reflexivity. }
    specialize (Hbody resp eq_refl).
    destruct (ok resp) eqn:Hok.
    + destruct (json resp (uploading w f)) as [[result|err] w2] eqn:Hjson;
        pose proof (Hbody (uploading w f)) as Hw2;
        rewrite Hjson in Hw2; simpl in Hw2; subst w2.
      * right. exists resp, result.
        split; [reflexivity|]. split; [exact Hok|].
        split; [rewrite Hjson; reflexivity|].
        rewrite (onDrop_parsed oc net f rest w _ _ resp result
                   Ht Hnet Hok Hjson).
        unfold try_finally, try_catch, bind, setData, emit, modify; simpl.
        destruct oc as [observer|]; simpl.
        -- unfold bind, emit, modify, lift; simpl.
           destruct (observer result) as [[]|err]; simpl;
             rewrite <- !app_assoc; split; reflexivity.
        -- rewrite <- app_assoc. split; reflexivity.
      * left.
        rewrite (UploadFacts.onDrop_responded oc net f rest w _ resp
                   Ht Hnet).
        erewrite UploadFacts.guarded_throw.
        2:{ unfold bind at 1. rewrite Hjson. reflexivity. }
        reflexivity.
    + left.
      rewrite (UploadFacts.onDrop_responded oc net f rest w _ resp Ht Hnet).
      destruct (not_ok_throws oc resp (uploading w f) Hok) as [err Hthrow].
      rewrite (UploadFacts.guarded_throw _ _ _ _ Hthrow). simpl.
      rewrite Hbody. reflexivity.
Qed.

Lemma respond_quiet (okay : bool) (body : Completion Value) :
  Page.quiet (Sample.respond okay body).
Proof. intros f w. split; [reflexivity|]. intros resp Hresp w'.
  simpl in Hresp. injection Hresp as <-. reflexivity. Qed.

(** A PDF answered with a 500 on a quiet page: one request, no
    notification. *)
Lemma onDrop_calls_out_once_witness :
  Page.contentChangeCalls
    (trace (snd (onDrop (Some Page.setContent)
                   (Sample.respond false (Normal (JObj [])))
                   [Sample.pdfFile] {| state := initialState; trace := [] |})))
  = [] /\
  fetchCalls
    (trace (snd (onDrop (Some Page.setContent)
                   (Sample.respond false (Normal (JObj [])))
                   [Sample.pdfFile] {| state := initialState; trace := [] |})))
  = [Sample.pdfFile].
Proof.
  destruct (onDrop_calls_out_once (Some Page.setContent)
              (Sample.respond false (Normal (JObj []))) [Sample.pdfFile]
              {| state := initialState; trace := [] |}
              (respond_quiet false (Normal (JObj []))))
    as [[_ Hno] | (f & rest & Hf & _ & [Htrace | Hsuccess])].
  - exfalso. apply Hno. exists Sample.pdfFile, []. split; reflexivity.
  - injection Hf as <- <-. rewrite Htrace. split; reflexivity.
  - destruct Hsuccess as (resp & result & Hresp & Hok & _).
    simpl in Hresp. injection Hresp as <-. discriminate.
Defined.

End UploadMore.

(* ================================================================== *)
(** * The page: from a conversion to the editor *)
(* ================================================================== *)

Lemma contentAfter_last (content v : Value) (events : list SubmitPdf.Event) :
  Page.contentAfter content
    (events ++ [SubmitPdf.ConsoleLog v; SubmitPdf.ContentChangeCall v])
  = v.
Proof.
  unfold Page.contentAfter. rewrite fold_left_app. reflexivity.
Qed.

(** X14.  From a successful conversion to the editor.  With the page's
    state setter as observer, a dropped PDF answered with an [ok] response
    whose body parses to [result] leaves [result] as the page's content,
    whatever it is.  If no editor was on the page and [result] is truthy,
    an editor is mounted, starting from [result] when that is a document
    and from [defaultContent] otherwise, so from a document that passes
    [isValidContent] either way.  If an editor was on the page and
    [result] is truthy, that editor stays and is handed [result] as its
    prop.  If [result] is falsy, no editor is on the page afterwards. *)
Theorem Home_after_conversion :
  forall (T : Tiptap) (net : SubmitPdf.Network) (f : SubmitPdf.File)
    (rest : list SubmitPdf.File) (w w1 w2 : SubmitPdf.World)
    (resp : SubmitPdf.Response) (result content : Value),
  SubmitPdf.type f = "application/pdf" ->
  net f (SubmitPdf.uploading w f) = (Normal resp, w1) ->
  SubmitPdf.ok resp = true ->
  SubmitPdf.json resp w1 = (Normal result, w2) ->
  let before := Page.contentAfter content (SubmitPdf.trace w2) in
  let after :=
    Page.contentAfter content
      (SubmitPdf.trace
         (snd (SubmitPdf.onDrop (Some Page.setContent) net (f :: rest) w))) in
  after = result /\
  (truthy before = false -> truthy result = true ->
   Page.Home_rerender before after = Page.Mounted (initialize result) /\
   isValidContent (initialContent result) = JBool true /\
   (isValidContent result = JBool true ->
    doc (initialize result) = createDocument result) /\
   (truthy (isValidContent result) = false ->
    doc (initialize result) = createDocument defaultContent)) /\
  (truthy before = true -> truthy result = true ->
   Page.Home_rerender before after = Page.Kept result) /\
  (truthy result = false ->
   Page.Home_rerender before after
   = if truthy before then Page.Unmounted else Page.Absent).
Proof.
  intros T net f rest w w1 w2 resp result content Ht Hnet Hok Hjson
    before after.
  assert (Hc : after = result).
  { unfold after.
    rewrite (UploadMore.onDrop_ok_run (Some Page.setContent) net f rest
               w w1 w2 resp result Ht Hnet Hok Hjson eq_refl).
    simpl. apply contentAfter_last. }
  rewrite Hc. split; [reflexivity|].
  unfold Page.Home_rerender, Page.Home_editor. split; [|split].
  - intros Hb Hr. rewrite Hb, Hr. split; [reflexivity|]. split; [|split].
    + unfold initialContent.
      destruct (truthy (isValidContent result)) eqn:Hv;
        [apply isValidContent_truthy; assumption | reflexivity].
    + intros Hv. unfold initialize, initialContent.
      rewrite (proj2 (isValidContent_truthy result) Hv). reflexivity.
    + intros Hv. unfold initialize, initialContent. rewrite Hv. reflexivity.
  - intros Hb Hr. rewrite Hb, Hr. reflexivity.
  - intros Hr. rewrite Hr. destruct (truthy before); reflexivity.
Qed.

(** The first conversion of a session, answered with an object that is no
    document: an editor is mounted and starts from the default document. *)
Lemma Home_after_conversion_witness :
  Page.Home_rerender (T := Sample.treeEditor) Page.Home_initial
    (Page.contentAfter Page.Home_initial
       (SubmitPdf.trace
          (snd (SubmitPdf.onDrop (Some Page.setContent)
                  (Sample.respond true (Normal (JObj [("pages", JNum 3)])))
                  [Sample.pdfFile]
                  {| SubmitPdf.state := SubmitPdf.initialState;
                     SubmitPdf.trace := [] |}))))
  = Page.Mounted (initialize (JObj [("pages", JNum 3)])) /\
  doc (T := Sample.treeEditor) (initialize (JObj [("pages", JNum 3)]))
  = defaultContent.
Proof.
  destruct (Home_after_conversion Sample.treeEditor
              (Sample.respond true (Normal (JObj [("pages", JNum 3)])))
              Sample.pdfFile []
              {| SubmitPdf.state := SubmitPdf.initialState;
                 SubmitPdf.trace := [] |}
              (SubmitPdf.uploading
                 {| SubmitPdf.state := SubmitPdf.initialState;
                    SubmitPdf.trace := [] |} Sample.pdfFile)
              (SubmitPdf.uploading
                 {| SubmitPdf.state := SubmitPdf.initialState;
                    SubmitPdf.trace := [] |} Sample.pdfFile)
              {| SubmitPdf.ok := true;
                 SubmitPdf.json := lift (Normal (JObj [("pages", JNum 3)])) |}
              (JObj [("pages", JNum 3)]) Page.Home_initial
              eq_refl eq_refl eq_refl eq_refl) as (_ & Hfirst & _).
  destruct (Hfirst eq_refl eq_refl) as (Hm & _ & _ & Hdefault).
  split; [exact Hm | exact (Hdefault eq_refl)].
Defined.
